(** * puckfetcher: subscription update engine and cache reconciliation

    A shallow embedding of [puckfetcher/subscription.py] and
    [puckfetcher/config.py].  Python objects are records, dictionaries are
    finite maps, the deque is a list whose head is the left end, and every
    function that can raise returns its exception explicitly, together
    with the state it leaves behind where that state is looked at again.
    An attribute that one of the ways of building an object leaves out is
    marked as such, and reading it raises. *)

From Stdlib Require Import ZArith Lia Ascii.
From stdpp Require Import gmap strings list fin_maps pretty.

Local Open Scope Z_scope.

(** ** Python runtime conventions shared by both modules *)

Module py.

(** The exceptions the modelled code can raise. *)
Inductive exn :=
| IndexError
| TypeError
| AttributeError
| KeyError
| OtherError.

(** How a call ends: it returns, or an exception escapes from it. *)
Inductive outcome (A : Type) :=
| Return (a : A)
| Raise (e : exn).
Arguments Return {A} a.
Arguments Raise {A} e.

(** [l[i]] on a list: negative subscripts count from the right end and
    anything outside [-len, len) is an [IndexError] (here [None]). *)
Definition index {A : Type} (l : list A) (i : Z) : option A :=
  let n := Z.of_nat (length l) in
  if bool_decide (0 <= i < n) then l !! Z.to_nat i
  else if bool_decide (- n <= i < 0) then l !! Z.to_nat (n + i)
  else None.

(** An attribute of an object.  [__new__] makes an object that has no
    attributes at all; an attribute is there once something has assigned
    it, and reading one that is not raises [AttributeError]. *)
Inductive attr (A : Type) :=
| Unset
| Attr (a : A).
Arguments Unset {A}.
Arguments Attr {A} a.

Global Instance attr_eq_dec {A : Type} `{EqDecision A} : EqDecision (attr A).
Proof. solve_decision. Defined.

(** [obj.name]: reading an attribute. *)
Definition getattr {A : Type} (a : attr A) : outcome A :=
  match a with
  | Unset => Raise AttributeError
  | Attr v => Return v
  end.

(** Truthiness of an attribute that holds [None], [True] or [False]. *)
Definition truthy (b : option bool) : bool := default false b.

(** [s is None or s == ""]. *)
Definition none_or_empty (s : option string) : bool :=
  match s with
  | None => true
  | Some u => bool_decide (u = "")
  end.

(** Values that meet in [num not in queue]: the number asked for is an
    [int], what the deque holds are [(int, bool)] tuples. *)
Inductive obj :=
| Int (n : Z)
| Tuple (n : Z) (b : bool).

(** [==] between such values: an [int] never equals a tuple. *)
Definition eqb (x y : obj) : bool :=
  match x, y with
  | Int a, Int b => bool_decide (a = b)
  | Tuple a f, Tuple b g => bool_decide (a = b) && bool_decide (f = g)
  | _, _ => false
  end.

(** [x in seq]. *)
Definition contains (x : obj) (seq : list obj) : bool := existsb (eqb x) seq.

End py.

(** ** subscription.py *)

Module subscription.

Definition MAX_RECURSIVE_ATTEMPTS : Z := 10.

(** [class UpdateResult(Enum)]. *)
Inductive UpdateResult :=
| SUCCESS
| UNNEEDED
| FAILURE
| ATTEMPT_AGAIN.

Global Instance UpdateResult_eq_dec : EqDecision UpdateResult.
Proof. solve_decision. Defined.

(** One element of [feed_state.entries], as built by [load_rss_info]. *)
Record Entry := mkEntry {
  title : string;
  urls : list string
}.

(** [class _FeedState].  [entries_state_dict] maps a zero-based
    age-from-oldest index to its downloaded flag; [queue] holds
    [(one_based_index, overwrite)] with the left end first;
    [last_modified] is kept as an opaque timestamp. *)
Record _FeedState := mkFeedState {
  entries : list Entry;
  entries_state_dict : gmap Z bool;
  queue : list (Z * bool);
  last_modified : option Z;
  etag : option string;
  latest_entry_number : option Z;
  has_state : bool
}.

(** [_FeedState()] with no dictionary. *)
Definition empty_feed_state : _FeedState :=
  mkFeedState [] ∅ [] None None None false.

(** [class Subscription].  An attribute that can hold [None] is an
    [option].  The objects of the class are built in two ways, by
    [__init__] and by [decode_subscription], and each way leaves one
    attribute out: [__init__] never assigns [use_title_as_filename], and
    [decode_subscription] never assigns [_temp_url].  Every other attribute
    below is assigned by both.  The class has no attribute [original_url]
    and no method [update], the names under which [config.py] asks for the
    provided URL and for a change of name, URL and directory. *)
Record Subscription := mkSubscription {
  name : string;
  _current_url : option string;
  _provided_url : option string;
  _temp_url : py.attr (option string);
  directory : option string;
  download_backlog : option bool;
  backlog_limit : option Z;
  use_title_as_filename : py.attr (option bool);
  feed_state : _FeedState
}.

(** *** Attribute assignment *)

Definition set_entries (v : list Entry) (fs : _FeedState) : _FeedState :=
  mkFeedState v (entries_state_dict fs) (queue fs) (last_modified fs)
    (etag fs) (latest_entry_number fs) (has_state fs).

Definition set_entries_state_dict (v : gmap Z bool) (fs : _FeedState) : _FeedState :=
  mkFeedState (entries fs) v (queue fs) (last_modified fs)
    (etag fs) (latest_entry_number fs) (has_state fs).

Definition set_queue (v : list (Z * bool)) (fs : _FeedState) : _FeedState :=
  mkFeedState (entries fs) (entries_state_dict fs) v (last_modified fs)
    (etag fs) (latest_entry_number fs) (has_state fs).

Definition set_last_modified (v : option Z) (fs : _FeedState) : _FeedState :=
  mkFeedState (entries fs) (entries_state_dict fs) (queue fs) v
    (etag fs) (latest_entry_number fs) (has_state fs).

Definition set_etag (v : option string) (fs : _FeedState) : _FeedState :=
  mkFeedState (entries fs) (entries_state_dict fs) (queue fs) (last_modified fs)
    v (latest_entry_number fs) (has_state fs).

Definition set_latest_entry_number (v : option Z) (fs : _FeedState) : _FeedState :=
  mkFeedState (entries fs) (entries_state_dict fs) (queue fs) (last_modified fs)
    (etag fs) v (has_state fs).

Definition set_name (v : string) (s : Subscription) : Subscription :=
  mkSubscription v (_current_url s) (_provided_url s) (_temp_url s) (directory s)
    (download_backlog s) (backlog_limit s) (use_title_as_filename s) (feed_state s).

Definition set_current_url (v : option string) (s : Subscription) : Subscription :=
  mkSubscription (name s) v (_provided_url s) (_temp_url s) (directory s)
    (download_backlog s) (backlog_limit s) (use_title_as_filename s) (feed_state s).

Definition set_provided_url (v : option string) (s : Subscription) : Subscription :=
  mkSubscription (name s) (_current_url s) v (_temp_url s) (directory s)
    (download_backlog s) (backlog_limit s) (use_title_as_filename s) (feed_state s).

Definition set_temp_url (v : option string) (s : Subscription) : Subscription :=
  mkSubscription (name s) (_current_url s) (_provided_url s) (py.Attr v) (directory s)
    (download_backlog s) (backlog_limit s) (use_title_as_filename s) (feed_state s).

Definition set_directory (v : option string) (s : Subscription) : Subscription :=
  mkSubscription (name s) (_current_url s) (_provided_url s) (_temp_url s) v
    (download_backlog s) (backlog_limit s) (use_title_as_filename s) (feed_state s).

Definition set_download_backlog (v : option bool) (s : Subscription) : Subscription :=
  mkSubscription (name s) (_current_url s) (_provided_url s) (_temp_url s) (directory s)
    v (backlog_limit s) (use_title_as_filename s) (feed_state s).

Definition set_backlog_limit (v : option Z) (s : Subscription) : Subscription :=
  mkSubscription (name s) (_current_url s) (_provided_url s) (_temp_url s) (directory s)
    (download_backlog s) v (use_title_as_filename s) (feed_state s).

Definition set_use_title_as_filename (v : option bool) (s : Subscription) : Subscription :=
  mkSubscription (name s) (_current_url s) (_provided_url s) (_temp_url s) (directory s)
    (download_backlog s) (backlog_limit s) (py.Attr v) (feed_state s).

Definition set_feed_state (v : _FeedState) (s : Subscription) : Subscription :=
  mkSubscription (name s) (_current_url s) (_provided_url s) (_temp_url s) (directory s)
    (download_backlog s) (backlog_limit s) (use_title_as_filename s) v.

(** [self.feed_state.<attr> = ...]: assignment through the subscription. *)
Definition with_feed_state (f : _FeedState -> _FeedState) (s : Subscription) : Subscription :=
  set_feed_state (f (feed_state s)) s.

(** [Subscription(url, name, directory, download_backlog, backlog_limit)]
    once the constructor's checks have passed: [_temp_url] is [None], and
    [use_title_as_filename] is not assigned. *)
Definition new_subscription (url nm : string) (dir : option string)
    (backlog : bool) (limit : option Z) : Subscription :=
  mkSubscription nm (Some url) (Some url) (py.Attr None) dir (Some backlog) limit py.Unset
    empty_feed_state.

(** *** The file downloader *)

(** One call [self.downloader(url=url, dest=dest, overwrite=overwrite)]. *)
Record DownloadCall := mkDownloadCall {
  dl_url : string;
  dl_dest : string;
  dl_overwrite : bool
}.

(** What a download call does to its caller: it completes, the user
    interrupts it ([KeyboardInterrupt]), or another exception escapes. *)
Inductive DownloadOutcome :=
| Downloaded
| Interrupted
| Failed.

(** *** The feed parser *)

(** One entry of [parsed["entries"]]: its title and the [href] of each
    enclosure. *)
Record RawEntry := mkRawEntry {
  raw_title : string;
  raw_enclosures : list string
}.

(** What the code reads from a [feedparser.parse] result.  [None] in
    [p_status], [p_bozo], [p_etag] and [p_modified_parsed] means the key is
    not in the result. *)
Record Parsed := mkParsed {
  p_status : option Z;
  p_bozo : option Z;
  p_etag : option string;
  p_modified_parsed : option Z;
  p_href : string;
  p_entries : list RawEntry
}.

(** The arguments of one [feedparser.parse] call. *)
Record Request := mkRequest {
  req_url : option string;
  req_etag : option string;
  req_modified : option Z
}.

(** What [_feedparser_parse_with_options] returns: [(None, FAILURE)],
    [(None, UNNEEDED)] or [(parsed, SUCCESS)]. *)
Inductive ParseResult :=
| ParseFailure
| ParseUnneeded
| ParseSuccess (parsed : Parsed).

(** The two results of [attempt_update]: an [UpdateResult] handed on from
    [get_feed], or a plain [bool]. *)
Inductive UpdateReturn :=
| Result (r : UpdateResult)
| Bool (b : bool).

(** Modelled from the spec: [Util.max_clamp] is not part of the sources at
    hand; the backlog limit is clamped to
    [min(backlogLimit, totalEntries)]. *)
Definition max_clamp (val bound : Z) : Z := Z.min val bound.

(** [str(n)] for an [int]. *)
Definition str (n : Z) : string := pretty n.

(** A run of [n] zero digits. *)
Fixpoint zeros (n : nat) : string :=
  match n with
  | O => ""
  | S n => String "0"%char (zeros n)
  end.

(** [s.zfill(width)]: the padding goes after a leading sign. *)
Definition zfill (width : nat) (s : string) : string :=
  let pad := zeros (width - String.length s)%nat in
  match s with
  | String "-"%char rest => String "-"%char (pad +:+ rest)
  | String "+"%char rest => String "+"%char (pad +:+ rest)
  | _ => pad +:+ s
  end.

Section Methods.

(** The environment of a subscription.  [feedparser_parse] answers a
    request given the requests made before it, so a source may answer the
    same URL differently over time; [downloader] likewise.  [_get_dest]
    and [path_join] compute file names only; they stand for the names
    computed for a subscription that has what the computation reads,
    [use_title_as_filename] and a directory.  The [rate_limited] wrapper of
    [get_feed] delays the call and then makes it, so it is left out. *)
Variable feedparser_parse : list Request -> Request -> Parsed.
Variable downloader : list DownloadCall -> DownloadCall -> DownloadOutcome.
Variable _get_dest : Subscription -> string -> string -> option string -> string.
Variable path_join : option string -> string -> option string.

(** [_FeedState.load_rss_info]. *)
Definition load_rss_info (parsed : Parsed) (fs : _FeedState) : _FeedState :=
  set_entries
    (map (fun entry => mkEntry (raw_title entry) (raw_enclosures entry)) (p_entries parsed))
    fs.

(** [_FeedState.store_last_modified]: [None] is ignored. *)
Definition store_last_modified (v : option Z) (fs : _FeedState) : _FeedState :=
  match v with
  | Some t => set_last_modified (Some t) fs
  | None => fs
  end.

(** [Subscription._feedparser_parse_with_options]. *)
Definition _feedparser_parse_with_options (self : Subscription) (net : list Request)
    : ParseResult * Subscription * list Request :=
  let fs := feed_state self in
  let request :=
    if negb (has_state fs)
       || (bool_decide (last_modified fs = None) && bool_decide (etag fs = None))
    then mkRequest (_current_url self) None None
    else if bool_decide (last_modified fs <> None) && bool_decide (etag fs <> None)
    then mkRequest (_current_url self) (etag fs) (last_modified fs)
    else if bool_decide (last_modified fs <> None)
    then mkRequest (_current_url self) None (last_modified fs)
    else mkRequest (_current_url self) (etag fs) None in
  let parsed := feedparser_parse net request in
  let net := net ++ [request] in
  let self := with_feed_state (set_etag (from_option Some (etag fs) (p_etag parsed))) self in
  let self :=
    with_feed_state
      (store_last_modified (from_option Some (last_modified fs) (p_modified_parsed parsed)))
      self in
  if bool_decide (p_status parsed = None) && bool_decide (p_bozo parsed = Some 1)
  then (ParseFailure, self, net)
  else if bool_decide (p_status parsed = Some 304)
  then (ParseUnneeded, self, net)
  else (ParseSuccess parsed, self, net).

(** [Subscription._handle_http_codes]. *)
Definition _handle_http_codes (parsed : Parsed) (self : Subscription)
    : UpdateResult * Subscription :=
  match p_status parsed with
  | None => (SUCCESS, self)
  | Some status =>
    if bool_decide (status = 404) then (FAILURE, self)
    else if bool_decide (status = 401) || bool_decide (status = 410)
    then (FAILURE, set_current_url None self)
    else if bool_decide (status = 301) || bool_decide (status = 308)
    then (ATTEMPT_AGAIN, set_current_url (Some (p_href parsed)) self)
    else if bool_decide (status = 302) || bool_decide (status = 303)
            || bool_decide (status = 307)
    then (ATTEMPT_AGAIN,
          set_current_url (Some (p_href parsed)) (set_temp_url (_current_url self) self))
    else if bool_decide (status <> 200) then (ATTEMPT_AGAIN, self)
    else (SUCCESS, self)
  end.

(** [if temp is not None: self._current_url = temp]. *)
Definition restore_current_url (temp : option string) (self : Subscription) : Subscription :=
  match temp with
  | Some u => set_current_url (Some u) self
  | None => self
  end.

(** [Subscription.get_feed].  Each recursive call uses up one unit of
    [fuel]; [None] is the model running out of it.  On [ATTEMPT_AGAIN] the
    method reads [self._temp_url] before it calls itself, which raises on
    an object that has no such attribute; an exception of the inner call
    passes through the outer one, which then restores nothing. *)
Fixpoint get_feed_rec (fuel : nat) (attempt_count : Z) (self : Subscription)
    (net : list Request) : option (py.outcome UpdateResult * Subscription * list Request) :=
  match fuel with
  | O => None
  | S fuel =>
    if bool_decide (attempt_count > MAX_RECURSIVE_ATTEMPTS)
    then Some (py.Return FAILURE, self, net)
    else if py.none_or_empty (_current_url self)
    then Some (py.Return FAILURE, self, net)
    else
      match _feedparser_parse_with_options self net with
      | (ParseUnneeded, self, net) => Some (py.Return UNNEEDED, self, net)
      | (ParseFailure, self, net) => Some (py.Return FAILURE, self, net)
      | (ParseSuccess parsed, self, net) =>
        match _handle_http_codes parsed self with
        | (ATTEMPT_AGAIN, self) =>
          match py.getattr (_temp_url self) with
          | py.Raise e => Some (py.Raise e, self, net)
          | py.Return temp =>
            match get_feed_rec fuel (attempt_count + 1) self net with
            | None => None
            | Some (py.Raise e, self, net) => Some (py.Raise e, self, net)
            | Some (py.Return new_result, self, net) =>
              Some (py.Return new_result, restore_current_url temp self, net)
            end
          end
        | (SUCCESS, self) =>
          Some (py.Return SUCCESS, with_feed_state (load_rss_info parsed) self, net)
        | (code, self) => Some (py.Return code, self, net)
        end
      end
  end.

(** Fuel for every attempt the bound lets through, and one more for the
    call that the bound stops. *)
Definition get_feed_fuel (attempt_count : Z) : nat :=
  S (Z.to_nat (MAX_RECURSIVE_ATTEMPTS + 1 - attempt_count)).

Definition get_feed (attempt_count : Z) (self : Subscription) (net : list Request)
    : option (py.outcome UpdateResult * Subscription * list Request) :=
  get_feed_rec (get_feed_fuel attempt_count) attempt_count self net.

(** The [for i, url in enumerate(urls)] loop of [download_queue]: one
    downloader call per enclosure, stopping at the first call that does
    not complete. *)
Fixpoint download_enclosures (self : Subscription) (entry_title : string)
    (dir : option string) (overwrite : bool) (enclosures : list string)
    (dl : list DownloadCall) : DownloadOutcome * list DownloadCall :=
  match enclosures with
  | [] => (Downloaded, dl)
  | url :: rest =>
    let call := mkDownloadCall url (_get_dest self url entry_title dir) overwrite in
    match downloader dl call with
    | Downloaded => download_enclosures self entry_title dir overwrite rest (dl ++ [call])
    | stopped => (stopped, dl ++ [call])
    end
  end.

(** The [while self.feed_state.queue] loop of [download_queue], by
    recursion on the queue: [pending] is the queue before [popleft], and the
    subscription carries what is left of it from then on.  A
    [KeyboardInterrupt] from the downloader is caught and ends the call;
    any other exception escapes. *)
Fixpoint download_queue_loop (pending : list (Z * bool)) (self : Subscription)
    (dl : list DownloadCall) : py.outcome unit * Subscription * list DownloadCall :=
  match pending with
  | [] => (py.Return (), self, dl)
  | (entry_num, overwrite) :: rest =>
    let self := with_feed_state (set_queue rest) self in
    let entry_num := entry_num - 1 in
    let num_entries := Z.of_nat (length (entries (feed_state self))) in
    let entry_age := num_entries - (entry_num + 1) in
    match py.index (entries (feed_state self)) entry_age with
    | None => (py.Raise py.IndexError, self, dl)
    | Some entry =>
      let num_entry_files := length (urls entry) in
      let dir :=
        if bool_decide (1 < num_entry_files)%nat
        then path_join (directory self) (title entry)
        else directory self in
      match download_enclosures self (title entry) dir overwrite (urls entry) dl with
      | (Downloaded, dl) =>
        match latest_entry_number (feed_state self) with
        | None => (py.Raise py.TypeError, self, dl)
        | Some latest =>
          let self :=
            if bool_decide (entry_num > latest)
            then with_feed_state (set_latest_entry_number (Some entry_num)) self
            else self in
          let self :=
            with_feed_state
              (fun fs => set_entries_state_dict (<[entry_num := true]> (entries_state_dict fs)) fs)
              self in
          download_queue_loop rest self dl
        end
      | (Interrupted, dl) =>
        (py.Return (),
         with_feed_state (fun fs => set_queue ((entry_num, true) :: queue fs) fs) self,
         dl)
      | (Failed, dl) => (py.Raise py.OtherError, self, dl)
      end
    end
  end.

(** [Subscription.download_queue]. *)
Definition download_queue (self : Subscription) (dl : list DownloadCall)
    : py.outcome unit * Subscription * list DownloadCall :=
  download_queue_loop (queue (feed_state self)) self dl.

(** The queue as the objects [num] is compared with. *)
Definition queue_objects (q : list (Z * bool)) : list py.obj :=
  map (fun item => py.Tuple item.1 item.2) q.

(** The [for num in nums] loop of [enqueue], building [actual_nums]. *)
Fixpoint enqueue_accepted (self : Subscription) (nums : list Z) : list (Z * bool) :=
  match nums with
  | [] => []
  | num :: rest =>
    if bool_decide (num > 0)
       && bool_decide (num <= Z.of_nat (length (entries (feed_state self))))
       && negb (py.contains (py.Int num) (queue_objects (queue (feed_state self))))
    then (num, true) :: enqueue_accepted self rest
    else enqueue_accepted self rest
  end.

(** [Subscription.enqueue]: returns [actual_nums]. *)
Definition enqueue (nums : list Z) (self : Subscription)
    : list (Z * bool) * Subscription :=
  let actual_nums := enqueue_accepted self nums in
  (actual_nums, with_feed_state (fun fs => set_queue (queue fs ++ actual_nums) fs) self).

(** [attempt_update] from the test [latest_entry_number >= number_feeds]
    to the end of the queueing loop, with [latest] the watermark the
    subscription holds at that point. *)
Definition attempt_update_queue (latest : Z) (self : Subscription)
    : (bool * Subscription) + Subscription :=
  let number_feeds := Z.of_nat (length (entries (feed_state self))) in
  if bool_decide (latest >= number_feeds)
  then inl (true, self)
  else
    let r := seqZ latest (number_feeds - latest) in
    inr (with_feed_state
           (fun fs => set_queue (queue fs ++ map (fun i => (i + 1, false)) r) fs)
           self).

(** [attempt_update] between the feed arriving and the call of
    [download_queue]: either the method returns a [bool] here, or the new
    entries have been appended to the queue. *)
Definition attempt_update_plan (self : Subscription) : (bool * Subscription) + Subscription :=
  let number_feeds := Z.of_nat (length (entries (feed_state self))) in
  match latest_entry_number (feed_state self) with
  | Some latest => attempt_update_queue latest self
  | None =>
    if py.truthy (download_backlog self)
    then
      match backlog_limit self with
      | None =>
        attempt_update_queue 0 (with_feed_state (set_latest_entry_number (Some 0)) self)
      | Some limit =>
        if bool_decide (limit = 0)
        then attempt_update_queue 0 (with_feed_state (set_latest_entry_number (Some 0)) self)
        else if bool_decide (limit < 0)
        then inl (false, self)
        else
          let limit := max_clamp limit number_feeds in
          let self := set_backlog_limit (Some limit) self in
          attempt_update_queue (number_feeds - limit)
            (with_feed_state (set_latest_entry_number (Some (number_feeds - limit))) self)
      end
    else inl (true, with_feed_state (set_latest_entry_number (Some number_feeds)) self)
  end.

(** [Subscription.attempt_update]. *)
Definition attempt_update (self : Subscription) (net : list Request)
    (dl : list DownloadCall)
    : option (py.outcome UpdateReturn * Subscription * list Request * list DownloadCall) :=
  match get_feed 0 self net with
  | None => None
  | Some (py.Raise e, self, net) => Some (py.Raise e, self, net, dl)
  | Some (py.Return feed_get_result, self, net) =>
    if bool_decide (feed_get_result <> SUCCESS)
    then Some (py.Return (Result feed_get_result), self, net, dl)
    else
      match attempt_update_plan self with
      | inl (ret, self) => Some (py.Return (Bool ret), self, net, dl)
      | inr self =>
        match download_queue self dl with
        | (py.Return _, self, dl) => Some (py.Return (Bool true), self, net, dl)
        | (py.Raise e, self, dl) => Some (py.Raise e, self, net, dl)
        end
      end
  end.

(** [Subscription.get_status]: the arguments of [format] are evaluated
    first, and [None - 1] is a [TypeError]. *)
Definition get_status (index total_subs : Z) (self : Subscription) : py.outcome string :=
  let pad_num := String.length (str total_subs) in
  let padded_cur_num := zfill pad_num (str (index + 1)) in
  match latest_entry_number (feed_state self) with
  | None => py.Raise py.TypeError
  | Some latest =>
    py.Return (padded_cur_num +:+ "/" +:+ str total_subs +:+ " - '" +:+ name self
               +:+ "' |" +:+ str (latest - 1) +:+ "|")
  end.

End Methods.

(** [sep.join(parts)]. *)
Fixpoint join (sep : string) (parts : list string) : string :=
  match parts with
  | [] => ""
  | [part] => part
  | part :: rest => part +:+ sep +:+ join sep rest
  end.

(** The [for i in xrange(num_entries+1)] loop of [get_details]: one
    indicator for each [i] from 0 to the number of entries, a plus sign if
    [i] is a key of [entries_state_dict] and a minus sign if not. *)
Definition entry_indicators (self : Subscription) : list string :=
  let num_entries := Z.of_nat (length (entries (feed_state self))) in
  let pad_num := String.length (str num_entries) in
  map
    (fun i =>
       if bool_decide (is_Some (entries_state_dict (feed_state self) !! i))
       then zfill pad_num (str (i + 1)) +:+ "+"
       else zfill pad_num (str (i + 1)) +:+ "-")
    (seqZ 0 (num_entries + 1)).

(** [Subscription.get_details]; [repr_queue] is how Python prints the
    list of queue items. *)
Definition get_details (repr_queue : list (Z * bool) -> string) (index total_subs : Z)
    (self : Subscription) : py.outcome string :=
  match get_status index total_subs self with
  | py.Raise e => py.Raise e
  | py.Return status =>
    py.Return
      (join (String "010"%char "")
         [status;
          "Status of podcast queue:";
          repr_queue (queue (feed_state self));
          "";
          "Status of podcast entries:";
          join " " (entry_indicators self)])
  end.

End subscription.

(** ** config.py *)

Module config.

Import subscription.

(** The [feed_state] dictionary of a cache record, as [_FeedState.as_dict]
    writes it: every key is there and [last_modified] is always [None]. *)
Record FeedStateDictionary := mkFeedStateDictionary {
  fd_entries : list Entry;
  fd_entries_state_dict : gmap Z bool;
  fd_queue : list (Z * bool);
  fd_latest_entry_number : option Z;
  fd_etag : option string
}.

(** One record of the cache.  [None] means the key is not in the
    dictionary; the two URLs can also be there with the value [None]. *)
Record SubDictionary := mkSubDictionary {
  d_name : option string;
  d_current_url : option (option string);
  d_provided_url : option (option string);
  d_directory : option string;
  d_download_backlog : option bool;
  d_backlog_limit : option Z;
  d_use_title_as_filename : option bool;
  d_feed_state : option FeedStateDictionary
}.

(** [_FeedState(dict=...)]. *)
Definition feed_state_from (d : option FeedStateDictionary) : _FeedState :=
  match d with
  | Some d =>
    mkFeedState (fd_entries d) (fd_entries_state_dict d) (fd_queue d) None (fd_etag d)
      (fd_latest_entry_number d) true
  | None => empty_feed_state
  end.

(** [Subscription.decode_subscription]: [None] is the Python [None] it
    returns when one of [name], [_current_url], [_provided_url] is
    missing.  The object is made by [__new__] and given the attributes of
    the record one by one; [_temp_url] is not among them. *)
Definition decode_subscription (sub_dictionary : SubDictionary) : option Subscription :=
  match d_name sub_dictionary, d_current_url sub_dictionary, d_provided_url sub_dictionary with
  | Some nm, Some current, Some provided =>
    Some (mkSubscription nm current provided py.Unset
            (d_directory sub_dictionary) (d_download_backlog sub_dictionary)
            (d_backlog_limit sub_dictionary)
            (py.Attr (d_use_title_as_filename sub_dictionary))
            (feed_state_from (d_feed_state sub_dictionary)))
  | _, _, _ => None
  end.

(** What [Subscription.parse_from_user_yaml] builds from one entry of the
    user's subscription list. *)
Record UserSub := mkUserSub {
  u_name : string;
  u_url : string;
  u_directory : option string;
  u_download_backlog : option bool;
  u_backlog_limit : option Z;
  u_use_title_as_filename : option bool
}.

(** The part of [Config.settings] that subscriptions take defaults from. *)
Record Settings := mkSettings {
  settings_directory : string;
  settings_backlog_limit : option Z;
  settings_use_title_as_filename : option bool
}.

(** [Config.cache_map]: the decoded subscriptions by name and by URL. *)
Record CacheMap := mkCacheMap {
  by_name : gmap string Subscription;
  by_url : gmap (option string) Subscription
}.

Definition empty_cache_map : CacheMap := mkCacheMap ∅ ∅.

(** What the cache file holds: nothing at all ([None], the empty byte
    string of a file just created or just opened for writing), or a packed
    list of records. *)
Definition CacheFile := option (list SubDictionary).

(** [decoded_sub.original_url].  [Subscription] keeps the URL it was given
    in [_provided_url] and has no attribute [original_url], on whichever of
    its two ways the object was built: the read raises. *)
Definition original_url (decoded_sub : Subscription) : py.outcome (option string) :=
  py.Raise py.AttributeError.

(** The [for encoded_sub in ...] loop of [Config._load_cache_settings].
    [decode_subscription] reports a bad record by returning [None], which
    is not the [MalformedSubscriptionError] the handler waits for, so the
    next statement reads [decoded_sub.name] from [None].  For a record that
    decodes, the object is entered under its name, and then its
    [original_url] is read. *)
Fixpoint load_cache_records (records : list SubDictionary) (cache_map : CacheMap)
    : py.outcome unit * CacheMap :=
  match records with
  | [] => (py.Return (), cache_map)
  | encoded_sub :: rest =>
    match decode_subscription encoded_sub with
    | None => (py.Raise py.AttributeError, cache_map)
    | Some decoded_sub =>
      let cache_map :=
        mkCacheMap (<[name decoded_sub := decoded_sub]> (by_name cache_map))
          (by_url cache_map) in
      match original_url decoded_sub with
      | py.Raise e => (py.Raise e, cache_map)
      | py.Return url =>
        let cache_map :=
          mkCacheMap (by_name cache_map) (<[url := decoded_sub]> (by_url cache_map)) in
        load_cache_records rest cache_map
      end
    end
  end.

(** [Config._load_cache_settings]: an empty cache file is left alone,
    any other is unpacked and its records are loaded in turn. *)
Definition _load_cache_settings (data : CacheFile) (cache_map : CacheMap)
    : py.outcome unit * CacheMap :=
  match data with
  | None => (py.Return (), cache_map)
  | Some records => load_cache_records records cache_map
  end.

(** The loop of [Config.list]: the status lines logged, until one call of
    [get_status] raises. *)
Fixpoint list_loop (num_subs : Z) (i : Z) (subscriptions : list Subscription)
    (logged : list string) : py.outcome unit * list string :=
  match subscriptions with
  | [] => (py.Return (), logged)
  | sub :: rest =>
    match get_status i num_subs sub with
    | py.Raise e => (py.Raise e, logged)
    | py.Return line => list_loop num_subs (i + 1) rest (logged ++ [line])
    end
  end.

(** [Config.list] once the state is loaded. *)
Definition list_ (subscriptions : list Subscription) : py.outcome unit * list string :=
  list_loop (Z.of_nat (length subscriptions)) 0 subscriptions [].

(** [_FeedState.as_dict]: the date it formats is not the one it writes;
    [last_modified] goes out as [None]. *)
Definition as_dict (fs : _FeedState) : FeedStateDictionary :=
  mkFeedStateDictionary (entries fs) (entries_state_dict fs) (queue fs)
    (latest_entry_number fs) (etag fs).

(** [Subscription.encode_subscription]; [__type__] and [__version__] are
    written too and read by nothing.  Of the attributes it reads,
    [use_title_as_filename] is the one an object can lack. *)
Definition encode_subscription (sub : Subscription) : py.outcome SubDictionary :=
  match py.getattr (use_title_as_filename sub) with
  | py.Raise e => py.Raise e
  | py.Return use_title =>
    py.Return
      (mkSubDictionary (Some (name sub)) (Some (_current_url sub))
         (Some (_provided_url sub)) (directory sub) (download_backlog sub)
         (backlog_limit sub) use_title (Some (as_dict (feed_state sub))))
  end.

(** The list comprehension of [save_cache]: one record for each place of
    the subscription list, up to the first that does not encode. *)
Fixpoint encode_subscriptions (subscriptions : list Subscription)
    : py.outcome (list SubDictionary) :=
  match subscriptions with
  | [] => py.Return []
  | s :: rest =>
    match encode_subscription s with
    | py.Raise e => py.Raise e
    | py.Return encoded =>
      match encode_subscriptions rest with
      | py.Raise e => py.Raise e
      | py.Return dicts => py.Return (encoded :: dicts)
      end
    end
  end.

(** [Config.save_cache]: how the call ends and what the cache file holds
    then.  The file is opened for writing, which empties it, before the
    subscriptions are encoded; it is written once all of them are. *)
Definition save_cache (subscriptions : list Subscription) : py.outcome unit * CacheFile :=
  match encode_subscriptions subscriptions with
  | py.Raise e => (py.Raise e, None)
  | py.Return dicts => (py.Return (), Some dicts)
  end.

(** One entry of the user's [subscriptions] list.  The outer [None] of a
    field means the key is not in the entry; an optional key can also be
    there with the value [null]. *)
Record YamlSub := mkYamlSub {
  y_name : option string;
  y_url : option string;
  y_directory : option (option string);
  y_download_backlog : option (option bool);
  y_backlog_limit : option (option Z);
  y_use_title_as_filename : option (option bool)
}.

(** The [defaults] dictionary [parse_from_user_yaml] reads; [None] means
    the key is not in it. *)
Record Defaults := mkDefaults {
  default_directory : option string;
  default_download_backlog : option (option bool);
  default_backlog_limit : option (option Z);
  default_use_title_as_filename : option (option bool)
}.

(** [Config.settings] as a [defaults] dictionary: it has no
    [download_backlog] key. *)
Definition settings_defaults (settings : Settings) : Defaults :=
  mkDefaults (Some (settings_directory settings)) None
    (Some (settings_backlog_limit settings))
    (Some (settings_use_title_as_filename settings)).

(** [defaults[key]]. *)
Definition subscript {A : Type} (entry : option A) : py.outcome A :=
  match entry with
  | Some value => py.Return value
  | None => py.Raise py.KeyError
  end.

(** [Subscription.parse_from_user_yaml].  The default handed to each
    [sub_yaml.get] is evaluated before the call, whether the key is in the
    entry or not.  [None] is the [None] returned for an entry without name
    or URL. *)
Definition parse_from_user_yaml (path_join : string -> string -> string)
    (sub_yaml : YamlSub) (defaults : Defaults) : py.outcome (option UserSub) :=
  match y_name sub_yaml with
  | None => py.Return None
  | Some nm =>
    match y_url sub_yaml with
    | None => py.Return None
    | Some url =>
      match subscript (default_directory defaults) with
      | py.Raise e => py.Raise e
      | py.Return root =>
        let dir := default (Some (path_join root nm)) (y_directory sub_yaml) in
        match subscript (default_download_backlog defaults) with
        | py.Raise e => py.Raise e
        | py.Return backlog =>
          let backlog := default backlog (y_download_backlog sub_yaml) in
          match subscript (default_backlog_limit defaults) with
          | py.Raise e => py.Raise e
          | py.Return limit =>
            let limit := default limit (y_backlog_limit sub_yaml) in
            match subscript (default_use_title_as_filename defaults) with
            | py.Raise e => py.Raise e
            | py.Return use_title =>
              let use_title := default use_title (y_use_title_as_filename sub_yaml) in
              py.Return (Some (mkUserSub nm url dir backlog limit use_title))
            end
          end
        end
      end
    end
  end.

(** The top level of the user's configuration as [_load_user_settings]
    reads it: the three settings it knows (every other key is skipped) and
    the subscription list.  [None] means the key is not there. *)
Record YamlSettings := mkYamlSettings {
  yaml_directory : option string;
  yaml_backlog_limit : option (option Z);
  yaml_use_title_as_filename : option (option bool);
  yaml_subscriptions : option (list YamlSub)
}.

(** The settings loop of [_load_user_settings]: a key that is in
    [self.settings] takes the user's value. *)
Definition merge_settings (yaml_settings : YamlSettings) (settings : Settings) : Settings :=
  mkSettings
    (default (settings_directory settings) (yaml_directory yaml_settings))
    (default (settings_backlog_limit settings) (yaml_backlog_limit yaml_settings))
    (default (settings_use_title_as_filename settings)
       (yaml_use_title_as_filename yaml_settings)).

(** The subscription loop of [_load_user_settings]: an entry that parses
    to [None] is counted and skipped, an exception escapes. *)
Fixpoint parse_subscriptions (path_join : string -> string -> string)
    (settings : Settings) (entries : list YamlSub) (subscriptions : list UserSub)
    : py.outcome (list UserSub) :=
  match entries with
  | [] => py.Return subscriptions
  | yaml_sub :: rest =>
    match parse_from_user_yaml path_join yaml_sub (settings_defaults settings) with
    | py.Raise e => py.Raise e
    | py.Return None => parse_subscriptions path_join settings rest subscriptions
    | py.Return (Some sub) =>
      parse_subscriptions path_join settings rest (subscriptions ++ [sub])
    end
  end.

(** [Config._load_user_settings] on the parsed configuration file ([None]
    for an empty file): the settings and the subscriptions it leaves. *)
Definition _load_user_settings (path_join : string -> string -> string)
    (yaml_settings : option YamlSettings) (settings : Settings)
    : py.outcome (Settings * list UserSub) :=
  match yaml_settings with
  | None => py.Return (settings, [])
  | Some yaml_settings =>
    let settings := merge_settings yaml_settings settings in
    match
      parse_subscriptions path_join settings
        (default [] (yaml_subscriptions yaml_settings)) []
    with
    | py.Raise e => py.Raise e
    | py.Return subscriptions => py.Return (settings, subscriptions)
    end
  end.

(** [sub.update(directory=..., name=..., url=..., set_original=True,
    config_dir=...)] in the merge loop of [load_state].  [Subscription] has
    [update_url] and [update_directory] and no method [update], so the call
    raises, on an object parsed from the user's file and on a cached one
    alike, and has no way to return. *)
Definition update {A : Type} (dir : option string) (nm url : string) (sub : A)
    : py.outcome Empty_set :=
  py.Raise py.AttributeError.

(** The merge loop of [Config.load_state], which is entered if the
    subscription list is not empty.  The object [update] is called on is
    the cached one found by name, or else the cached one found by URL, or
    else the user subscription itself; the call does not return, so the
    statements after it ([default_missing_fields], [subs.append]) have no
    part in what the loop does. *)
Definition load_state_loop (cache_map : CacheMap) (subscriptions : list UserSub)
    : py.outcome (list Subscription) :=
  match subscriptions with
  | [] => py.Return []
  | sub :: _ =>
    let nm := u_name sub in
    let url := u_url sub in
    let dir := u_directory sub in
    let called :=
      match by_name cache_map !! nm with
      | Some cached => update dir nm url cached
      | None =>
        match by_url cache_map !! Some url with
        | Some cached => update dir nm url cached
        | None => update dir nm url sub
        end
      end in
    match called with
    | py.Raise e => py.Raise e
    | py.Return nothing => match nothing with end
    end
  end.

(** What a [load_state] that returns leaves in the [Config], with
    [state_loaded] set: the settings, the cache maps and the subscription
    list. *)
Record Loaded := mkLoaded {
  loaded_settings : Settings;
  loaded_cache_map : CacheMap;
  loaded_subscriptions : list Subscription
}.

(** [Config.load_state] on the parsed configuration file and the cache
    file, for a [Config] that holds [settings] and [cache_map].  Its two
    [except MalformedConfigError] handlers raise again what they catch, and
    no other exception is caught. *)
Definition load_state (path_join : string -> string -> string)
    (yaml_settings : option YamlSettings) (settings : Settings) (data : CacheFile)
    (cache_map : CacheMap) : py.outcome Loaded :=
  match _load_user_settings path_join yaml_settings settings with
  | py.Raise e => py.Raise e
  | py.Return (settings, subscriptions) =>
    match _load_cache_settings data cache_map with
    | (py.Raise e, _) => py.Raise e
    | (py.Return _, cache_map) =>
      match load_state_loop cache_map subscriptions with
      | py.Raise e => py.Raise e
      | py.Return subs => py.Return (mkLoaded settings cache_map subs)
      end
    end
  end.

(** How a command ends: done, refused with a [BadCommandError], or left
    by another exception. *)
Inductive CommandOutcome (A : Type) :=
| Done (a : A)
| BadCommandError
| Escaped (e : py.exn).
Arguments Done {A} a.
Arguments BadCommandError {A}.
Arguments Escaped {A} e.

(** The part of a [Config] the commands look at: whether the state has
    been loaded, and the subscription list. *)
Record Config (A : Type) := mkConfig {
  state_loaded : bool;
  subscriptions : list A
}.
Arguments mkConfig {A} state_loaded subscriptions.
Arguments state_loaded {A} c.
Arguments subscriptions {A} c.

Section Commands.

Context {A : Type}.

(** What [load_state] makes of the configuration and the cache files: the
    subscription list, or the exception it raises. *)
Variable loaded : py.outcome (list A).

(** [_ensure_loaded]. *)
Definition _ensure_loaded (config : Config A) : py.outcome (Config A) :=
  if state_loaded config then py.Return config
  else
    match loaded with
    | py.Raise e => py.Raise e
    | py.Return subs => py.Return (mkConfig true subs)
    end.

(** [Config._validate_command]: the index is compared with the list as it
    is when the command arrives, and the state is loaded afterwards. *)
Definition _validate_command (sub_index : Z) (config : Config A)
    : CommandOutcome (Config A) :=
  if bool_decide (sub_index < 0)
     || bool_decide (sub_index > Z.of_nat (length (subscriptions config)))
  then BadCommandError
  else
    match _ensure_loaded config with
    | py.Raise e => Escaped e
    | py.Return config => Done config
    end.

(** [Config._validate_list_command]; [None] is no list at all. *)
Definition _validate_list_command (sub_index : Z) (nums : option (list Z))
    (config : Config A) : CommandOutcome (Config A) :=
  match nums with
  | None => BadCommandError
  | Some nums =>
    if bool_decide (length nums <= 0)%nat then BadCommandError
    else _validate_command sub_index config
  end.

(** The start of [details], [download_queue] and [summarize_sub]:
    validate, then take [self.subscriptions[sub_index]]. *)
Definition command_subscription (sub_index : Z) (config : Config A)
    : CommandOutcome (Config A * A) :=
  match _validate_command sub_index config with
  | Done config =>
    match py.index (subscriptions config) sub_index with
    | Some sub => Done (config, sub)
    | None => Escaped py.IndexError
    end
  | BadCommandError => BadCommandError
  | Escaped e => Escaped e
  end.

End Commands.

End config.

(** ** Concrete environments

    The parser and downloader doubles of [test/test_subscription.py], and
    a few small subscriptions, for the statements that evaluate the code. *)

Module fixtures.

Import subscription config.

(** The ten entries of the test parser, newest first: each is titled [hi]
    and has the one enclosure [hi0<i>.txt]. *)
Definition raw_entries : list RawEntry :=
  map (fun i => mkRawEntry "hi" ["hi0" +:+ str i +:+ ".txt"]) (seqZ 0 10).

Definition ten_entries : list Entry :=
  map (fun entry => mkEntry (raw_title entry) (raw_enclosures entry)) raw_entries.

Definition answer (status : Z) (href : string) : Parsed :=
  mkParsed (Some status) None None None href raw_entries.

(** [_fake_parser]: the URLs [301], [302], [404] and [410] answer with that
    status, the two redirects pointing at [valid]; every other URL answers
    200. *)
Definition fake_parser (net : list Request) (request : Request) : Parsed :=
  match req_url request with
  | Some "301" => answer 301 "valid"
  | Some "302" => answer 302 "valid"
  | Some "404" => answer 404 ""
  | Some "410" => answer 410 ""
  | _ => answer 200 ""
  end.

(** A source whose URL [302] redirects temporarily when first asked and
    permanently from then on. *)
Definition moving_parser (net : list Request) (request : Request) : Parsed :=
  match req_url request, net with
  | Some "302", [] => answer 302 "valid"
  | Some "302", _ :: _ => answer 301 "valid"
  | _, _ => answer 200 ""
  end.

(** [generate_fake_downloader]: every download completes. *)
Definition fake_downloader (dl : list DownloadCall) (call : DownloadCall) : DownloadOutcome :=
  Downloaded.

(** A downloader whose first call is interrupted by the user. *)
Definition interrupted_once (dl : list DownloadCall) (call : DownloadCall) : DownloadOutcome :=
  match dl with
  | [] => Interrupted
  | _ :: _ => Downloaded
  end.

(** File names are the enclosure URL itself, directories are left alone. *)
Definition url_dest (self : Subscription) (url entry_title : string) (dir : option string)
    : string := url.

Definition same_directory (dir : option string) (entry_title : string) : option string := dir.

(** A subscription that holds [feed] entries, the watermark [latest] and
    the queue [q], and has downloaded nothing yet; as the tests do after
    constructing one, [use_title_as_filename] is set to [False]. *)
Definition sub_with (feed : list Entry) (latest : option Z) (q : list (Z * bool))
    : Subscription :=
  set_use_title_as_filename (Some false)
    (set_feed_state (mkFeedState feed ∅ q None None latest true)
       (new_subscription "valid" "bar" None true None)).

(** A cache record whose feed history has the watermark [latest]. *)
Definition cache_record (nm : option string) (url : string) (latest : Z) : SubDictionary :=
  mkSubDictionary nm (Some (Some url)) (Some (Some url)) (Some "dir") (Some true)
    (Some 1) (Some false)
    (Some (mkFeedStateDictionary ten_entries ∅ [] (Some latest) None)).

Definition defaults : Settings := mkSettings "data" (Some 1) (Some false).

(** An entry of the user's subscription list that gives a name and a URL
    and leaves the rest to the defaults. *)
Definition yaml_sub (nm url : string) : YamlSub :=
  mkYamlSub (Some nm) (Some url) None None None None.

(** A configuration file that lists the subscriptions [subs] and sets
    nothing else. *)
Definition yaml_with (subs : list YamlSub) : YamlSettings :=
  mkYamlSettings None None None (Some subs).

(** [os.path.join] on two plain names. *)
Definition join_path (root leaf : string) : string := root +:+ "/" +:+ leaf.

(** A subscription as [decode_subscription] builds it from a cache
    record: no [_temp_url]. *)
Definition decoded (url nm : string) : Subscription :=
  mkSubscription nm (Some url) (Some url) py.Unset (Some "dir") (Some true) (Some 1)
    (py.Attr (Some false)) (mkFeedState ten_entries ∅ [] None None (Some 7) true).

(** A source that answers every request with the status 500. *)
Definition failing_parser (net : list Request) (request : Request) : Parsed :=
  answer 500 "".

(** A source whose first answer is a redirect to [valid] with the status
    [status], and that answers 200 from then on. *)
Definition redirecting_once (status : Z) (net : list Request) (request : Request) : Parsed :=
  match net with
  | [] => answer status "valid"
  | _ :: _ => answer 200 ""
  end.

End fixtures.

(** ** Vocabulary of the statements *)

Module spec.

Import subscription config.

(** The directory the enclosures of an entry go to. *)
Definition entry_directory (path_join : option string -> string -> option string)
    (self : Subscription) (entry : Entry) : option string :=
  if bool_decide (1 < length (urls entry))%nat
  then path_join (directory self) (title entry)
  else directory self.

(** The number of entries of a subscription's feed. *)
Definition total_entries (self : Subscription) : Z :=
  Z.of_nat (length (entries (feed_state self))).

(** First contact as the spec words it, for a positive backlog limit [k]
    and [n] entries: the limit is clamped to [min k n], the watermark
    becomes [n - min k n], and the one-based indices from the watermark + 1
    to [n] join the queue in ascending order, each with [overwrite] off. *)
Definition first_contact_planned (k : Z) (self : Subscription) : Subscription :=
  let n := total_entries self in
  let clamped := Z.min k n in
  set_backlog_limit (Some clamped)
    (with_feed_state
       (fun fs =>
          set_queue (queue fs ++ map (fun i => (i, false)) (seqZ (n - clamped + 1) clamped))
            (set_latest_entry_number (Some (n - clamped)) fs))
       self).

(** The attempts the bound still lets through from [attempt_count] on. *)
Definition attempts_left (attempt_count : Z) : nat :=
  Z.to_nat (MAX_RECURSIVE_ATTEMPTS + 1 - attempt_count).

(** Every key of [entries_state_dict] is below the number of entries. *)
Definition status_keys_in_range (self : Subscription) : Prop :=
  map_Forall (fun key (_ : bool) => key < total_entries self)
    (entries_state_dict (feed_state self)).

(** No queued index is above the number of entries. *)
Definition queue_in_range (self : Subscription) : Prop :=
  Forall (fun item : Z * bool => item.1 <= total_entries self) (queue (feed_state self)).

(** The watermark [after] is not behind the watermark [before]: once set,
    it stays set and does not decrease. *)
Definition watermark_le (before after : option Z) : Prop :=
  match before with
  | None => True
  | Some a => exists b, after = Some b /\ a <= b
  end.

(** The watermark of [after] is not behind the watermark of [before]. *)
Definition watermark_kept (before after : Subscription) : Prop :=
  watermark_le (latest_entry_number (feed_state before))
    (latest_entry_number (feed_state after)).

(** What an operation that takes a subscription from [before] to [after]
    has to keep: the status keys and the queued indices stay within the
    feed, whose length does not change, and the watermark does not go
    back. *)
Definition preserved (before after : Subscription) : Prop :=
  total_entries after = total_entries before
  /\ status_keys_in_range after
  /\ queue_in_range after
  /\ watermark_le (latest_entry_number (feed_state before))
       (latest_entry_number (feed_state after)).

(** What is left of a feed state after a trip through the cache: the
    date of the last change is gone, and the state counts as loaded. *)
Definition cached_feed_state (fs : _FeedState) : _FeedState :=
  mkFeedState (entries fs) (entries_state_dict fs) (queue fs) None (etag fs)
    (latest_entry_number fs) true.

(** What is left of a subscription after a trip through the cache: it
    has no [_temp_url] any more. *)
Definition cache_image (sub : Subscription) : Subscription :=
  mkSubscription (name sub) (_current_url sub) (_provided_url sub) py.Unset (directory sub)
    (download_backlog sub) (backlog_limit sub) (use_title_as_filename sub)
    (cached_feed_state (feed_state sub)).

(** The entry has both mandatory keys. *)
Definition has_name_and_url (sub_yaml : YamlSub) : bool :=
  bool_decide (is_Some (y_name sub_yaml)) && bool_decide (is_Some (y_url sub_yaml)).

(** What fetching the feed leaves alone: the identity and policy of the
    subscription and, of its feed state, the queue, the status flags, the
    watermark and the mark of a loaded state. *)
Definition fetch_frame (before after : Subscription) : Prop :=
  name after = name before
  /\ _provided_url after = _provided_url before
  /\ directory after = directory before
  /\ download_backlog after = download_backlog before
  /\ backlog_limit after = backlog_limit before
  /\ use_title_as_filename after = use_title_as_filename before
  /\ queue (feed_state after) = queue (feed_state before)
  /\ entries_state_dict (feed_state after) = entries_state_dict (feed_state before)
  /\ latest_entry_number (feed_state after) = latest_entry_number (feed_state before)
  /\ has_state (feed_state after) = has_state (feed_state before).

(** The request a subscription makes: its current URL, with the stored
    validators if its feed state was loaded from the cache and with none
    otherwise. *)
Definition request_of (self : Subscription) : Request :=
  if has_state (feed_state self)
  then mkRequest (_current_url self) (etag (feed_state self))
         (last_modified (feed_state self))
  else mkRequest (_current_url self) None None.

(** A request without validators. *)
Definition unconditional (request : Request) : Prop :=
  req_etag request = None /\ req_modified request = None.

(** A status [_handle_http_codes] has no case for, and that is not the
    304 handled before it: the fetch is tried again on the same URL. *)
Definition retried_status (status : Z) : Prop :=
  status ∉ [200; 301; 302; 303; 304; 307; 308; 401; 404; 410].

(** The status flags after every item of [items] has been downloaded. *)
Definition drained_status (items : list (Z * bool)) (status : gmap Z bool) : gmap Z bool :=
  foldl (fun status item => <[item.1 - 1 := true]> status) status items.

(** The watermark after every item of [items] has been downloaded,
    starting from [latest]. *)
Definition drained_watermark (items : list (Z * bool)) (latest : Z) : Z :=
  foldl (fun latest item => Z.max latest (item.1 - 1)) latest items.

(** A subscription after its whole queue has been downloaded. *)
Definition drained (latest : Z) (self : Subscription) : Subscription :=
  with_feed_state
    (fun fs =>
       mkFeedState (entries fs) (drained_status (queue fs) (entries_state_dict fs)) []
         (last_modified fs) (etag fs) (Some (drained_watermark (queue fs) latest))
         (has_state fs))
    self.

(** The download call for one enclosure of an entry. *)
Definition enclosure_call
    (_get_dest : Subscription -> string -> string -> option string -> string)
    (self : Subscription) (entry_title : string) (dir : option string) (overwrite : bool)
    (url : string) : DownloadCall :=
  mkDownloadCall url (_get_dest self url entry_title dir) overwrite.

(** The queue items for the entries after the watermark [latest], up to
    entry [n]. *)
Definition new_items (latest n : Z) : list (Z * bool) :=
  map (fun i => (i, false)) (seqZ (latest + 1) (n - latest)).

(** A subscription after a reply has refreshed its validators: the etag
    and the date of the reply replace the stored ones where the reply has
    them. *)
Definition refreshed (reply : Parsed) (self : Subscription) : Subscription :=
  with_feed_state
    (fun fs =>
       mkFeedState (entries fs) (entries_state_dict fs) (queue fs)
         (from_option Some (last_modified fs) (p_modified_parsed reply))
         (from_option Some (etag fs) (p_etag reply))
         (latest_entry_number fs) (has_state fs))
    self.

(** The entries [load_rss_info] makes of a reply. *)
Definition reply_entries (reply : Parsed) : list Entry :=
  map (fun entry => mkEntry (raw_title entry) (raw_enclosures entry)) (p_entries reply).

(** The statuses of a temporary and of a permanent redirect. *)
Definition temporary_redirect (status : Z) : Prop :=
  status = 302 \/ status = 303 \/ status = 307.

Definition permanent_redirect (status : Z) : Prop :=
  status = 301 \/ status = 308.

End spec.

(** * Properties *)

Import subscription config.

(** Unfold attribute assignments down to the record they build. *)
Ltac setters :=
  unfold with_feed_state, set_feed_state, set_entries, set_entries_state_dict, set_queue,
    set_last_modified, set_etag, set_latest_entry_number, set_name, set_current_url,
    set_provided_url, set_temp_url, set_directory, set_download_backlog,
    set_backlog_limit, set_use_title_as_filename;
  cbn [name _current_url _provided_url _temp_url directory download_backlog
       backlog_limit use_title_as_filename feed_state entries entries_state_dict queue
       last_modified etag latest_entry_number has_state].

Ltac setters_in H :=
  unfold with_feed_state, set_feed_state, set_entries, set_entries_state_dict, set_queue,
    set_last_modified, set_etag, set_latest_entry_number, set_name, set_current_url,
    set_provided_url, set_temp_url, set_directory, set_download_backlog,
    set_backlog_limit, set_use_title_as_filename in H;
  cbn [name _current_url _provided_url _temp_url directory download_backlog
       backlog_limit use_title_as_filename feed_state entries entries_state_dict queue
       last_modified etag latest_entry_number has_state] in H.

(** ** Draining the queue *)

Section DownloadQueue.

Context (downloader : list DownloadCall -> DownloadCall -> DownloadOutcome)
  (_get_dest : Subscription -> string -> string -> option string -> string)
  (path_join : option string -> string -> option string).

Local Abbreviation download_enclosures :=
  (subscription.download_enclosures downloader _get_dest).
Local Abbreviation download_queue_loop :=
  (subscription.download_queue_loop downloader _get_dest path_join).
Local Abbreviation download_queue :=
  (subscription.download_queue downloader _get_dest path_join).

Local Abbreviation entry_directory := (spec.entry_directory path_join).

(** One completed drain step on the item [(i, overwrite)]: the watermark
    becomes [max latest (i - 1)], the flag of [i - 1] is set, and the loop
    goes on with the rest of the queue. *)
Lemma download_queue_loop_completed i overwrite rest self dl entry dl' latest :
  py.index (entries (feed_state self)) (Z.of_nat (length (entries (feed_state self))) - i)
    = Some entry ->
  download_enclosures (with_feed_state (set_queue rest) self) (title entry)
    (entry_directory self entry) overwrite (urls entry) dl = (Downloaded, dl') ->
  latest_entry_number (feed_state self) = Some latest ->
  download_queue_loop ((i, overwrite) :: rest) self dl =
  download_queue_loop rest
    (with_feed_state
       (fun fs =>
          mkFeedState (entries fs) (<[i - 1 := true]> (entries_state_dict fs)) rest
            (last_modified fs) (etag fs) (Some (Z.max latest (i - 1))) (has_state fs))
       self)
    dl'.
Proof.
  intros Hentry Hdl Hlatest.
  destruct self as [nm cu pu tu dir bk lim ut fs]; destruct fs as [es st q lm et lat hs].
  unfold spec.entry_directory in Hdl. cbn in Hentry, Hlatest. subst lat.
  cbn [subscription.download_queue_loop]. setters.
  replace (Z.of_nat (length es) - (i - 1 + 1)) with (Z.of_nat (length es) - i) by lia.
  rewrite Hentry. setters_in Hdl. rewrite Hdl. setters.
  repeat case_bool_decide; setters; repeat f_equal; lia.
Qed.

(** A drain step whose download is interrupted ends the call, and what it
    puts back at the front of the queue is [(i - 1, True)]: [entry_num] has
    already been decremented when the handler runs. *)
Lemma download_queue_loop_interrupted i overwrite rest self dl entry dl' :
  py.index (entries (feed_state self)) (Z.of_nat (length (entries (feed_state self))) - i)
    = Some entry ->
  download_enclosures (with_feed_state (set_queue rest) self) (title entry)
    (entry_directory self entry) overwrite (urls entry) dl = (Interrupted, dl') ->
  download_queue_loop ((i, overwrite) :: rest) self dl =
  (py.Return (), with_feed_state (set_queue ((i - 1, true) :: rest)) self, dl').
Proof.
  intros Hentry Hdl.
  destruct self as [nm cu pu tu dir bk lim ut fs]; destruct fs as [es st q lm et lat hs].
  unfold spec.entry_directory in Hdl. cbn in Hentry.
  cbn [subscription.download_queue_loop]. setters.
  replace (Z.of_nat (length es) - (i - 1 + 1)) with (Z.of_nat (length es) - i) by lia.
  rewrite Hentry. setters_in Hdl. rewrite Hdl. reflexivity.
Qed.

End DownloadQueue.

(** C1 (does not hold): a completed drain step on the item with one-based
    index [i] should raise the watermark to [max latest i] and set the flag
    of [i - 1].  The code compares and stores the decremented index, so
    the watermark only reaches [max latest (i - 1)]: with ten entries, the
    watermark at 9 and item 10 queued -- the setting of
    [test_attempt_update_new_entry], which expects 10 -- the drain
    downloads the newest entry, sets the flag of 9 and leaves the
    watermark at 9. *)
Theorem download_queue_watermark_one_short :
  let '(result, self, dl) :=
    download_queue fixtures.fake_downloader fixtures.url_dest fixtures.same_directory
      (fixtures.sub_with fixtures.ten_entries (Some 9) [(10, false)]) [] in
  result = py.Return ()
  /\ dl = [mkDownloadCall "hi00.txt" "hi00.txt" false]
  /\ entries_state_dict (feed_state self) !! 9 = Some true
  /\ latest_entry_number (feed_state self) = Some 9
  /\ latest_entry_number (feed_state self) <> Some (Z.max 9 10).
Proof. vm_compute. repeat split; congruence. Qed.

(** C2 (does not hold): interrupting the drain in the middle of item [i]
    should put [(i, True)] back at the front of the queue.  The handler
    pushes the decremented [entry_num]: with items 2 and 3 queued and the
    download of item 2 interrupted, the queue becomes [(1, True); (3,
    False)], so item 2 is lost and the resumed drain fetches entry 1 (the
    oldest, [hi09.txt]) instead of entry 2 ([hi08.txt]). *)
Theorem download_queue_interrupt_requeues_previous_index :
  let '(result, self, dl) :=
    download_queue fixtures.interrupted_once fixtures.url_dest fixtures.same_directory
      (fixtures.sub_with fixtures.ten_entries (Some 0) [(2, false); (3, false)]) [] in
  let '(_, _, resumed) :=
    download_queue fixtures.fake_downloader fixtures.url_dest fixtures.same_directory
      self [] in
  result = py.Return ()
  /\ dl = [mkDownloadCall "hi08.txt" "hi08.txt" false]
  /\ queue (feed_state self) = [(1, true); (3, false)]
  /\ queue (feed_state self) <> [(2, true); (3, false)]
  /\ resumed = [mkDownloadCall "hi09.txt" "hi09.txt" true;
                mkDownloadCall "hi07.txt" "hi07.txt" false].
Proof. vm_compute. repeat split; congruence. Qed.

(** ** Enqueueing by hand *)

(** A number is never found in the queue: the queue holds tuples. *)
Lemma number_not_in_queue num q : py.contains (py.Int num) (queue_objects q) = false.
Proof. induction q as [|[n b] q IH]; [reflexivity | exact IH]. Qed.

(** So [enqueue] accepts every number of the range, queued already or
    not, in input order. *)
Lemma enqueue_accepted_in_range self nums :
  enqueue_accepted self nums =
  map (fun num => (num, true))
    (filter (fun num => 0 < num <= Z.of_nat (length (entries (feed_state self)))) nums).
Proof.
  induction nums as [|num nums IH]; [reflexivity|].
  cbn [enqueue_accepted]. rewrite number_not_in_queue, IH, filter_cons.
  repeat case_bool_decide; destruct (decide _); cbn; (reflexivity || lia).
Qed.

(** C6 (does not hold): [enqueue] should drop the numbers that are
    already in the queue.  Its test [num not in self.feed_state.queue]
    looks for an [int] among [(int, bool)] tuples and so never finds one:
    with item 2 queued, enqueueing [2; 0; 11; 3; 2] drops the two numbers
    outside [1, 10] and queues 2 twice more. *)
Theorem enqueue_requeues_queued_item :
  let '(actual_nums, self) :=
    enqueue [2; 0; 11; 3; 2] (fixtures.sub_with fixtures.ten_entries (Some 9) [(2, false)]) in
  actual_nums = [(2, true); (3, true); (2, true)]
  /\ queue (feed_state self) = [(2, false); (2, true); (3, true); (2, true)]
  /\ actual_nums <> [(3, true)].
Proof. vm_compute. repeat split; congruence. Qed.

(** ** Planning the backlog *)

(** The range [xrange(latest, n)] shifted to one-based indices. *)
Lemma queued_range latest len :
  map (fun i => (i + 1, false)) (seqZ latest len) =
  map (fun i => (i, false)) (seqZ (latest + 1) len).
Proof.
  replace (latest + 1) with (1 + latest) by lia.
  rewrite <- (fmap_add_seqZ 1 latest len).
  change (Z.add 1 <$> seqZ latest len) with (map (Z.add 1) (seqZ latest len)).
  rewrite map_map. apply map_ext. intros i. f_equal. lia.
Qed.

(** C7: on first contact (no watermark yet) with backlog download on and
    a positive backlog limit [k], over [n] entries, [attempt_update] clamps
    the limit to [min k n], sets the watermark to [n - min k n] and appends
    the one-based indices watermark + 1 .. [n] to the queue in ascending
    order with [overwrite] off, which are the [min k n] newest entries;
    this is the state it hands to [download_queue] (with no entries at all
    there is nothing to hand over and it returns [True]). *)
Theorem attempt_update_plan_first_contact self k :
  latest_entry_number (feed_state self) = None ->
  download_backlog self = Some true ->
  backlog_limit self = Some k ->
  0 < k ->
  attempt_update_plan self =
    (if bool_decide (spec.total_entries self = 0)
     then inl (true, spec.first_contact_planned k self)
     else inr (spec.first_contact_planned k self))
  /\ length (seqZ (spec.total_entries self - Z.min k (spec.total_entries self) + 1)
               (Z.min k (spec.total_entries self)))
     = Z.to_nat (Z.min k (spec.total_entries self)).
Proof.
  intros Hlatest Hbacklog Hlimit Hk. split; [|apply length_seqZ].
  unfold attempt_update_plan, spec.first_contact_planned, spec.total_entries.
  rewrite Hlatest, Hbacklog, Hlimit. change (py.truthy (Some true)) with true.
  cbn match. rewrite !bool_decide_eq_false_2 by lia.
  unfold attempt_update_queue, max_clamp. setters.
  set (n := Z.of_nat (length (entries (feed_state self)))).
  assert (0 <= n) by lia.
  destruct (decide (n = 0)) as [Hn|Hn].
  - rewrite !bool_decide_eq_true_2 by lia.
    replace (Z.min k n) with 0 by lia. cbn [seqZ]. rewrite Hn.
    cbn. rewrite app_nil_r. reflexivity.
  - rewrite !bool_decide_eq_false_2 by lia.
    rewrite queued_range. repeat f_equal; lia.
Qed.

Lemma attempt_update_plan_first_contact_witness :
  let self := set_backlog_limit (Some 4) (fixtures.sub_with fixtures.ten_entries None []) in
  attempt_update_plan self = inr (spec.first_contact_planned 4 self)
  /\ queue (feed_state (spec.first_contact_planned 4 self))
     = [(7, false); (8, false); (9, false); (10, false)]
  /\ latest_entry_number (feed_state (spec.first_contact_planned 4 self)) = Some 6.
Proof.
  split; [|split; reflexivity].
  apply (attempt_update_plan_first_contact
           (set_backlog_limit (Some 4) (fixtures.sub_with fixtures.ten_entries None [])) 4);
    [reflexivity | reflexivity | reflexivity | lia].
Defined.

(** ** Fetching the feed *)

Section GetFeed.

Context (feedparser_parse : list Request -> Request -> Parsed).

Local Abbreviation _feedparser_parse_with_options :=
  (subscription._feedparser_parse_with_options feedparser_parse).
Local Abbreviation get_feed_rec := (subscription.get_feed_rec feedparser_parse).
Local Abbreviation get_feed := (subscription.get_feed feedparser_parse).

(** Each parse makes exactly one request. *)
Lemma parse_makes_one_request self net result self' net' :
  _feedparser_parse_with_options self net = (result, self', net') ->
  length net' = S (length net).
Proof.
  unfold subscription._feedparser_parse_with_options. intros H.
  repeat case_match; simplify_eq; rewrite length_app; cbn; lia.
Qed.

(** With fuel for the attempts left and one more, [get_feed] comes to an
    end, and it has made no more requests than there were attempts left. *)
Lemma get_feed_rec_returns fuel attempt_count self net :
  (spec.attempts_left attempt_count < fuel)%nat ->
  exists outcome self' net',
    get_feed_rec fuel attempt_count self net = Some (outcome, self', net')
    /\ (length net' <= length net + spec.attempts_left attempt_count)%nat.
Proof.
  revert attempt_count self net.
  induction fuel as [|fuel IH]; intros attempt_count self net Hfuel; [lia|].
  cbn [subscription.get_feed_rec].
  case_bool_decide as Hbound; [eexists _, _, _; split; [reflexivity | lia]|].
  destruct (py.none_or_empty _); [eexists _, _, _; split; [reflexivity | lia]|].
  assert (spec.attempts_left attempt_count = S (spec.attempts_left (attempt_count + 1)))
    as Hleft by (unfold spec.attempts_left, MAX_RECURSIVE_ATTEMPTS in *; lia).
  destruct (_feedparser_parse_with_options self net) as [[parse self1] net1] eqn:Hparse.
  apply parse_makes_one_request in Hparse.
  destruct parse as [| |parsed];
    [eexists _, _, _; split; [reflexivity | lia] ..|].
  destruct (_handle_http_codes parsed self1) as [code self2].
  destruct code; [eexists _, _, _; split; [reflexivity | lia] ..|].
  destruct (py.getattr (_temp_url self2)) as [temp|e];
    [|eexists _, _, _; split; [reflexivity | lia]].
  destruct (IH (attempt_count + 1) self2 net1) as (outcome & self3 & net3 & -> & Hlen);
    [lia|].
  destruct outcome; eexists _, _, _; (split; [reflexivity | lia]).
Qed.

(** Fuel beyond that changes nothing. *)
Lemma get_feed_rec_fuel fuel fuel' attempt_count self net :
  (spec.attempts_left attempt_count < fuel)%nat ->
  (spec.attempts_left attempt_count < fuel')%nat ->
  get_feed_rec fuel attempt_count self net = get_feed_rec fuel' attempt_count self net.
Proof.
  revert fuel' attempt_count self net.
  induction fuel as [|fuel IH]; intros [|fuel'] attempt_count self net H H'; try lia.
  cbn [subscription.get_feed_rec].
  case_bool_decide as Hbound; [reflexivity|].
  destruct (py.none_or_empty _); [reflexivity|].
  assert (spec.attempts_left attempt_count = S (spec.attempts_left (attempt_count + 1)))
    as Hleft by (unfold spec.attempts_left, MAX_RECURSIVE_ATTEMPTS in *; lia).
  destruct (_feedparser_parse_with_options self net) as [[parse self1] net1].
  destruct parse as [| |parsed]; try reflexivity.
  destruct (_handle_http_codes parsed self1) as [code self2].
  destruct code; try reflexivity.
  destruct (py.getattr (_temp_url self2)) as [temp|e]; [|reflexivity].
  rewrite (IH fuel' (attempt_count + 1) self2 net1) by lia. reflexivity.
Qed.

(** Past the bound nothing is fetched and nothing changes. *)
Lemma get_feed_past_bound attempt_count self net :
  attempt_count > MAX_RECURSIVE_ATTEMPTS ->
  get_feed attempt_count self net = Some (py.Return FAILURE, self, net).
Proof.
  intros Hbound. unfold subscription.get_feed, get_feed_fuel.
  cbn [subscription.get_feed_rec]. rewrite bool_decide_eq_true_2 by exact Hbound.
  reflexivity.
Qed.

(** What [get_feed] does on [ATTEMPT_AGAIN]: it reads [_temp_url], which
    ends the call on an object that has none, and otherwise calls itself
    for [attempt_count + 1] and hands on how that call ends, with the
    current URL put back if the call returned. *)
Lemma get_feed_attempt_again attempt_count self net parsed self1 net1 self2 :
  attempt_count <= MAX_RECURSIVE_ATTEMPTS ->
  py.none_or_empty (_current_url self) = false ->
  _feedparser_parse_with_options self net = (ParseSuccess parsed, self1, net1) ->
  _handle_http_codes parsed self1 = (ATTEMPT_AGAIN, self2) ->
  get_feed attempt_count self net =
  match _temp_url self2 with
  | py.Unset => Some (py.Raise py.AttributeError, self2, net1)
  | py.Attr temp =>
    match get_feed (attempt_count + 1) self2 net1 with
    | Some (py.Return new_result, self3, net3) =>
      Some (py.Return new_result, restore_current_url temp self3, net3)
    | ended => ended
    end
  end.
Proof.
  intros Hbound Hurl Hparse Hcode. unfold subscription.get_feed at 1, get_feed_fuel.
  cbn [subscription.get_feed_rec].
  rewrite bool_decide_eq_false_2 by lia. rewrite Hurl, Hparse, Hcode.
  destruct (_temp_url self2) as [|temp]; [reflexivity|]. cbn [py.getattr].
  rewrite (get_feed_rec_fuel _ (get_feed_fuel (attempt_count + 1)));
    [|unfold get_feed_fuel, spec.attempts_left, MAX_RECURSIVE_ATTEMPTS in *; lia..].
  unfold subscription.get_feed.
  by destruct (get_feed_rec _ _ self2 net1) as [[[[new_result|e] self3] net3]|].
Qed.

(** Parsing touches the feed state only. *)
Lemma parse_keeps_urls self net result self' net' :
  _feedparser_parse_with_options self net = (result, self', net') ->
  _current_url self' = _current_url self /\ _temp_url self' = _temp_url self.
Proof.
  unfold subscription._feedparser_parse_with_options. intros H.
  repeat case_match; simplify_eq; done.
Qed.

(** Nor does the handling of the status clear [_temp_url]. *)
Lemma handle_http_codes_keeps_temp_url parsed self code self' :
  _handle_http_codes parsed self = (code, self') ->
  is_Some (_current_url self) ->
  (exists u, _temp_url self = py.Attr (Some u)) ->
  exists u, _temp_url self' = py.Attr (Some u).
Proof.
  unfold _handle_http_codes. intros Hcode [url Hurl] Htemp.
  repeat case_match; simplify_eq; try done; cbn; rewrite Hurl; eauto.
Qed.

(** Nothing in [get_feed] sets [_temp_url] back to [None]: once a
    temporary redirect has filled it, it stays filled. *)
Lemma get_feed_rec_never_clears_temp_url fuel attempt_count self net outcome self' net' :
  get_feed_rec fuel attempt_count self net = Some (outcome, self', net') ->
  (exists u, _temp_url self = py.Attr (Some u)) ->
  exists u, _temp_url self' = py.Attr (Some u).
Proof.
  revert attempt_count self net outcome self' net'.
  induction fuel as [|fuel IH]; intros attempt_count self net outcome self' net' Hget Htemp;
    [discriminate|].
  cbn [subscription.get_feed_rec] in Hget.
  case_bool_decide; [by simplify_eq|].
  destruct (py.none_or_empty (_current_url self)) eqn:Hurl; [by simplify_eq|].
  destruct (_feedparser_parse_with_options self net) as [[parse self1] net1] eqn:Hparse.
  apply parse_keeps_urls in Hparse as [Hcurrent Htemp1]. rewrite <- Htemp1 in Htemp.
  destruct parse as [| |parsed]; [by simplify_eq..|].
  destruct (_handle_http_codes parsed self1) as [code self2] eqn:Hcode.
  assert (exists u, _temp_url self2 = py.Attr (Some u)) as Htemp2.
  { apply (handle_http_codes_keeps_temp_url _ _ _ _ Hcode); [|exact Htemp].
    rewrite Hcurrent. destruct (_current_url self); [eauto | discriminate]. }
  destruct code; [by simplify_eq..|].
  destruct (py.getattr (_temp_url self2)) as [temp|e]; [|by simplify_eq].
  destruct (get_feed_rec fuel _ self2 net1) as [[[[new_result|e] self3] net3]|] eqn:Hrec;
    [| |discriminate].
  - apply IH in Hrec; [|exact Htemp2]. simplify_eq. by destruct temp.
  - apply IH in Hrec; [|exact Htemp2]. by simplify_eq.
Qed.

(** C8: [get_feed] comes to an end on every input, after at most as many
    requests as the bound leaves attempts (eleven from [attempt_count] 0).
    A call with [attempt_count] above [MAX_RECURSIVE_ATTEMPTS] returns
    [FAILURE] with no request made and the subscription, its entries
    included, untouched.  A call within the bound that meets
    [ATTEMPT_AGAIN] is answered by the call for [attempt_count + 1] on the
    subscription as the status handling left it, after the one request
    already made: it ends as that call ends, with the current URL put back
    to [_temp_url] if that call returned.  The one thing that comes between
    is the read of [_temp_url], which on an object without that attribute
    ends the call there in an [AttributeError]. *)
Theorem get_feed_terminates attempt_count self net :
  (exists outcome self' net',
     get_feed attempt_count self net = Some (outcome, self', net')
     /\ (length net' <= length net + spec.attempts_left attempt_count)%nat
     /\ (attempt_count > MAX_RECURSIVE_ATTEMPTS ->
         outcome = py.Return FAILURE /\ self' = self /\ net' = net
         /\ entries (feed_state self') = entries (feed_state self)))
  /\ (forall parsed self1 net1 self2,
        attempt_count <= MAX_RECURSIVE_ATTEMPTS ->
        py.none_or_empty (_current_url self) = false ->
        _feedparser_parse_with_options self net = (ParseSuccess parsed, self1, net1) ->
        _handle_http_codes parsed self1 = (ATTEMPT_AGAIN, self2) ->
        length net1 = S (length net)
        /\ get_feed attempt_count self net =
           match _temp_url self2 with
           | py.Unset => Some (py.Raise py.AttributeError, self2, net1)
           | py.Attr temp =>
             match get_feed (attempt_count + 1) self2 net1 with
             | Some (py.Return new_result, self3, net3) =>
               Some (py.Return new_result, restore_current_url temp self3, net3)
             | ended => ended
             end
           end).
Proof.
  split.
  - destruct (get_feed_rec_returns (get_feed_fuel attempt_count) attempt_count self net)
      as (outcome & self' & net' & Hget & Hlen);
      [unfold get_feed_fuel, spec.attempts_left; lia|].
    exists outcome, self', net'. split; [exact Hget|]. split; [exact Hlen|].
    intros Hbound. pose proof (get_feed_past_bound attempt_count self net Hbound) as Hpast.
    unfold subscription.get_feed in Hpast. rewrite Hpast in Hget. by simplify_eq.
  - intros parsed self1 net1 self2 Hbound Hurl Hparse Hcode.
    split; [by eapply parse_makes_one_request|].
    by eapply get_feed_attempt_again.
Qed.

End GetFeed.

Lemma get_feed_terminates_witness :
  let self := new_subscription "302" "302Test" None true None in
  let request := mkRequest (Some "302") None None in
  get_feed fixtures.fake_parser 0 self [] =
  match get_feed fixtures.fake_parser 1
          (set_current_url (Some "valid") (set_temp_url (Some "302") self)) [request]
  with
  | Some (py.Return new_result, self3, net3) =>
    Some (py.Return new_result, restore_current_url (Some "302") self3, net3)
  | ended => ended
  end.
Proof.
  exact (proj2
           (proj2 (get_feed_terminates fixtures.fake_parser 0
                     (new_subscription "302" "302Test" None true None) [])
              (fixtures.answer 302 "valid")
              (new_subscription "302" "302Test" None true None)
              [mkRequest (Some "302") None None]
              (set_current_url (Some "valid")
                 (set_temp_url (Some "302")
                    (new_subscription "302" "302Test" None true None)))
              ltac:(unfold MAX_RECURSIVE_ATTEMPTS; lia) eq_refl eq_refl eq_refl)).
Defined.

(** C5 (does not hold): after a temporary redirect the cycle should leave
    [_current_url] at its old value and [_temp_url] unset again, and a
    permanent redirect should persist.  [get_feed] restores [_current_url]
    but nothing ever clears [_temp_url]: after the first cycle below (a 302
    from [302] to [valid]) it still holds [302].  The stale value is then
    taken for a pending temporary redirect by every later [ATTEMPT_AGAIN]:
    in the second cycle the source answers 301, [_current_url] is rewritten
    to [valid], fetched, and put back to [302], so the permanent redirect
    is lost -- whereas on a subscription that never saw a 302 the same 301
    persists. *)
Theorem get_feed_keeps_temp_url :
  let fresh := new_subscription "302" "302Test" None true None in
  match get_feed fixtures.moving_parser 0 fresh [] with
  | Some (first, self, net) =>
    first = py.Return SUCCESS
    /\ _current_url self = Some "302"
    /\ _temp_url self = py.Attr (Some "302")
    /\ _temp_url self <> py.Attr None
    /\ match get_feed fixtures.moving_parser 0 self net with
       | Some (second, self', net') =>
         second = py.Return SUCCESS
         /\ map req_url net' = [Some "302"; Some "valid"; Some "302"; Some "valid"]
         /\ _current_url self' = Some "302"
         /\ _current_url self' <> Some "valid"
       | None => False
       end
  | None => False
  end
  /\ match get_feed fixtures.fake_parser 0 (new_subscription "301" "301Test" None true None) []
     with
     | Some (result, self, _) =>
       result = py.Return SUCCESS /\ _current_url self = Some "valid"
     | None => False
     end.
Proof. vm_compute. repeat split; congruence. Qed.

(** ** Loading the cache *)

(** The load ends at the first record.  A record that decodes is entered
    under its name, and then the read of [original_url] raises; one that
    does not decode is not entered at all, and the read of its name
    raises.  Either way nothing is entered by URL and no later record is
    looked at. *)
Lemma load_cache_first_record record rest cache_map :
  load_cache_records (record :: rest) cache_map =
  (py.Raise py.AttributeError,
   mkCacheMap
     (match decode_subscription record with
      | Some sub => <[name sub := sub]> (by_name cache_map)
      | None => by_name cache_map
      end)
     (by_url cache_map)).
Proof.
  cbn [load_cache_records].
  destruct (decode_subscription record) as [sub|]; [reflexivity|].
  by destruct cache_map.
Qed.

(** Only an empty cache loads. *)
Lemma load_cache_settings_returns data cache_map cache_map' :
  _load_cache_settings data cache_map = (py.Return (), cache_map') ->
  (data = None \/ data = Some []) /\ cache_map' = cache_map.
Proof.
  destruct data as [[|record rest]|]; cbn [_load_cache_settings].
  - intros [= <-]. auto.
  - rewrite load_cache_first_record. intros [=].
  - intros [= <-]. auto.
Qed.

(** C3 (does not hold): a cache record without [name], [_current_url] or
    [_provided_url] should cost only that record, and every well-formed
    record should be entered in both maps.  No cache that holds a record
    loads at all.  The loader asks each decoded subscription for
    [original_url], an attribute [Subscription] does not have, so the first
    well-formed record ends the load in an [AttributeError], entered by name
    but not by URL; and a record that does not decode ends it too, because
    [decode_subscription] returns [None] for it instead of raising the
    [MalformedSubscriptionError] the loader's handler catches, and the next
    statement reads [decoded_sub.name].  So of the records [A], nameless,
    [C] below only [A] is decoded, the nameless one is never reached, let
    alone skipped, and [C] is not loaded; with the nameless record first,
    nothing is. *)
Theorem load_cache_aborts_at_first_record record rest cache_map :
  _load_cache_settings (Some (record :: rest)) cache_map =
  (py.Raise py.AttributeError,
   mkCacheMap
     (match decode_subscription record with
      | Some sub => <[name sub := sub]> (by_name cache_map)
      | None => by_name cache_map
      end)
     (by_url cache_map))
  /\ (let A := fixtures.cache_record (Some "A") "U1" 7 in
      let nameless := fixtures.cache_record None "U2" 3 in
      let C := fixtures.cache_record (Some "C") "U3" 5 in
      is_Some (decode_subscription A)
      /\ decode_subscription nameless = None
      /\ is_Some (decode_subscription C)
      /\ (let '(result, loaded) := _load_cache_settings (Some [A; nameless; C]) empty_cache_map in
          result = py.Raise py.AttributeError
          /\ by_name loaded !! "A" = decode_subscription A
          /\ by_name loaded !! "C" = None
          /\ by_url loaded = ∅)
      /\ _load_cache_settings (Some [nameless; C]) empty_cache_map
         = (py.Raise py.AttributeError, empty_cache_map)).
Proof.
  split; [apply load_cache_first_record|].
  cbv zeta. split; [by eexists|]. split; [reflexivity|]. split; [by eexists|].
  split.
  - cbn [_load_cache_settings]. rewrite load_cache_first_record.
    split; [reflexivity|]. split; [|split; reflexivity].
    cbn [by_name]. apply lookup_insert_eq.
  - cbn [_load_cache_settings]. by rewrite load_cache_first_record.
Qed.

(** ** Loading the state *)

(** The subscription loop of [_load_user_settings] with [Config]'s
    settings: nothing is ever appended. *)
Lemma parse_subscriptions_with_config_settings path_join settings entries subscriptions :
  parse_subscriptions path_join settings entries subscriptions =
  if existsb spec.has_name_and_url entries
  then py.Raise py.KeyError
  else py.Return subscriptions.
Proof.
  induction entries as [|yaml_sub rest IH]; [reflexivity|].
  cbn [parse_subscriptions existsb].
  unfold parse_from_user_yaml, spec.has_name_and_url.
  destruct (y_name yaml_sub), (y_url yaml_sub); cbn; try exact IH. reflexivity.
Qed.

(** What [_load_user_settings] comes to. *)
Lemma load_user_settings_outcome path_join yaml_settings settings :
  _load_user_settings path_join yaml_settings settings =
  match yaml_settings with
  | None => py.Return (settings, [])
  | Some yaml =>
    if existsb spec.has_name_and_url (default [] (yaml_subscriptions yaml))
    then py.Raise py.KeyError
    else py.Return (merge_settings yaml settings, [])
  end.
Proof.
  destruct yaml_settings as [yaml|]; [|reflexivity].
  unfold _load_user_settings. rewrite parse_subscriptions_with_config_settings.
  by destruct (existsb _ _).
Qed.

(** C4 (does not hold): a user subscription should adopt the feed state
    of the cached subscription with its name, or else with its URL, and
    keep its own name, URL and directory.  [load_state] never gets as far
    as the merge.  Reading the user's file comes first, and there every
    subscription that has a name and a URL ends in the [KeyError] of
    [defaults["download_backlog"]], a key [Config.settings] does not have:
    with the cache holding [A] and the user listing [A] under a new URL,
    [load_state] raises and [A] adopts nothing.  When the user lists no such
    subscription the list is empty, the cache is read, and any record in it
    ends the load in the [AttributeError] of [original_url].  So
    [load_state] returns only with an empty list and with the cache maps
    as they were, and the merge loop is never entered. *)
Theorem load_state_never_merges path_join yaml_settings settings data cache_map :
  (load_state path_join yaml_settings settings data cache_map = py.Raise py.KeyError
   <-> exists yaml,
         yaml_settings = Some yaml
         /\ existsb spec.has_name_and_url (default [] (yaml_subscriptions yaml)) = true)
  /\ (forall loaded,
        load_state path_join yaml_settings settings data cache_map = py.Return loaded ->
        loaded_subscriptions loaded = []
        /\ loaded_cache_map loaded = cache_map
        /\ (data = None \/ data = Some []))
  /\ load_state fixtures.join_path
       (Some (fixtures.yaml_with [fixtures.yaml_sub "A" "U1"; fixtures.yaml_sub "B" "U2"]))
       fixtures.defaults (Some [fixtures.cache_record (Some "A") "U2" 7]) empty_cache_map
     = py.Raise py.KeyError
  /\ load_state fixtures.join_path (Some (fixtures.yaml_with []))
       fixtures.defaults (Some [fixtures.cache_record (Some "A") "U2" 7]) empty_cache_map
     = py.Raise py.AttributeError.
Proof.
  split; [|split; [|split; reflexivity]].
  - unfold load_state. rewrite load_user_settings_outcome.
    destruct yaml_settings as [yaml|].
    + destruct (existsb _ _) eqn:Hlisted.
      * split; [eauto | reflexivity].
      * split; [|by intros (yaml' & [= <-] & Hyes); congruence].
        destruct data as [[|record rest]|]; cbn [_load_cache_settings];
          rewrite ?load_cache_first_record; discriminate.
    + split; [|by intros (yaml & [=] & _)].
      destruct data as [[|record rest]|]; cbn [_load_cache_settings];
        rewrite ?load_cache_first_record; discriminate.
  - intros loaded. unfold load_state. rewrite load_user_settings_outcome.
    assert (forall settings',
              match _load_cache_settings data cache_map with
              | (py.Raise e, _) => py.Raise e
              | (py.Return _, cache_map') =>
                match load_state_loop cache_map' [] with
                | py.Raise e => py.Raise e
                | py.Return subs => py.Return (mkLoaded settings' cache_map' subs)
                end
              end = py.Return loaded ->
              loaded_subscriptions loaded = [] /\ loaded_cache_map loaded = cache_map
              /\ (data = None \/ data = Some [])) as Hcache.
    { intros settings'.
      destruct (_load_cache_settings data cache_map) as [[[]|e] cache_map'] eqn:Hload;
        [|discriminate].
      apply load_cache_settings_returns in Hload as [Hdata ->].
      cbn. intros [= <-]. by split. }
    destruct yaml_settings as [yaml|]; [|apply Hcache].
    destruct (existsb _ _); [discriminate | apply Hcache].
Qed.

(** ** The feed-state invariant *)

Lemma watermark_le_refl w : spec.watermark_le w w.
Proof. destruct w as [a|]; [exists a; split; [reflexivity | lia] | exact I]. Qed.

Lemma watermark_le_trans u v w :
  spec.watermark_le u v -> spec.watermark_le v w -> spec.watermark_le u w.
Proof.
  destruct u as [a|]; [|done]. intros (b & -> & Hab) (c & -> & Hbc).
  exists c. split; [reflexivity | lia].
Qed.

Lemma preserved_refl self :
  spec.status_keys_in_range self -> spec.queue_in_range self -> spec.preserved self self.
Proof. intros Hkeys Hqueue. repeat split; try done. apply watermark_le_refl. Qed.

Lemma preserved_trans a b c : spec.preserved a b -> spec.preserved b c -> spec.preserved a c.
Proof.
  intros (Hn & _ & _ & Hw) (Hn' & Hkeys & Hqueue & Hw').
  repeat split; try done; [congruence | eapply watermark_le_trans; eassumption].
Qed.

Section Invariant.

Context (downloader : list DownloadCall -> DownloadCall -> DownloadOutcome)
  (_get_dest : Subscription -> string -> string -> option string -> string)
  (path_join : option string -> string -> option string).

Local Abbreviation download_queue_loop :=
  (subscription.download_queue_loop downloader _get_dest path_join).
Local Abbreviation download_queue :=
  (subscription.download_queue downloader _get_dest path_join).

(** The drain keeps the invariant, however it ends. *)
Lemma download_queue_loop_preserved pending self dl :
  queue (feed_state self) = pending ->
  spec.status_keys_in_range self ->
  spec.queue_in_range self ->
  spec.preserved self (download_queue_loop pending self dl).1.2.
Proof.
  revert self dl. induction pending as [|[i overwrite] rest IH]; intros self dl Hq Hkeys Hqueue.
  - by apply preserved_refl.
  - assert (Hi : i <= spec.total_entries self /\
                 Forall (fun item : Z * bool => item.1 <= spec.total_entries self) rest).
    { unfold spec.queue_in_range in Hqueue. rewrite Hq in Hqueue.
      by apply Forall_cons in Hqueue. }
    destruct Hi as [Hi Hrest].
    assert (Hpopped : spec.preserved self (with_feed_state (set_queue rest) self)).
    { repeat split; [done.. | apply watermark_le_refl]. }
    cbn [subscription.download_queue_loop].
    destruct (py.index _ _) as [entry|]; [|exact Hpopped].
    destruct (download_enclosures _ _ _ _ _ _ _ _) as [[| |] dl']; [| |exact Hpopped].
    + destruct (latest_entry_number _) as [latest|] eqn:Hlatest; [|exact Hpopped].
      cbn in Hlatest.
      match goal with
      | |- spec.preserved _ (download_queue_loop _ ?s _).1.2 => set (marked := s)
      end.
      assert (Hmarked : spec.preserved self marked /\ queue (feed_state marked) = rest).
      { subst marked. unfold spec.preserved, spec.status_keys_in_range, spec.queue_in_range,
          spec.total_entries in *.
        case_bool_decide; cbn; rewrite Hlatest;
          (repeat split;
           [apply map_Forall_insert_2; [lia | done] | done | eexists; split; [done | lia]]). }
      destruct Hmarked as [Hmarked Hmq].
      eapply preserved_trans; [exact Hmarked|].
      destruct Hmarked as (_ & Hkeys' & Hqueue' & _). by apply IH.
    + cbn [fst snd]. repeat split; [done | | apply watermark_le_refl].
      unfold spec.queue_in_range, spec.total_entries in *. cbn.
      apply Forall_cons. split; [cbn; lia | done].
Qed.

(** The drain never moves the watermark back, whatever the queue holds
    and however the drain ends. *)
Lemma download_queue_loop_watermark pending self dl :
  spec.watermark_kept self (download_queue_loop pending self dl).1.2.
Proof.
  unfold spec.watermark_kept. revert self dl.
  induction pending as [|[i overwrite] rest IH]; intros self dl; [apply watermark_le_refl|].
  cbn [subscription.download_queue_loop].
  destruct (py.index _ _) as [entry|]; [|apply watermark_le_refl].
  destruct (download_enclosures _ _ _ _ _ _ _ _) as [[| |] dl'];
    [| apply watermark_le_refl..].
  change (latest_entry_number (feed_state (with_feed_state (set_queue rest) self)))
    with (latest_entry_number (feed_state self)).
  destruct (latest_entry_number (feed_state self)) as [latest|] eqn:Hlatest; [|exact I].
  eapply watermark_le_trans; [|apply IH].
  case_bool_decide; cbn; [|rewrite Hlatest]; (eexists; split; [reflexivity | lia]).
Qed.

End Invariant.

(** [enqueue] leaves the watermark alone, and the backlog planning sets
    one only where there was none. *)
Lemma attempt_update_plan_watermark self :
  match attempt_update_plan self with
  | inl (_, after) | inr after => spec.watermark_kept self after
  end.
Proof.
  unfold spec.watermark_kept, attempt_update_plan. cbv zeta.
  destruct (latest_entry_number (feed_state self)) as [latest|] eqn:Hlatest.
  - unfold attempt_update_queue. case_bool_decide; cbn; rewrite Hlatest;
      exists latest; (split; [reflexivity | lia]).
  - by repeat case_match.
Qed.

(** [enqueue] only accepts numbers of the range and touches nothing but
    the queue. *)
Lemma enqueue_preserved nums self :
  spec.status_keys_in_range self ->
  spec.queue_in_range self ->
  spec.preserved self (enqueue nums self).2.
Proof.
  intros Hkeys Hqueue. unfold enqueue. cbn [snd].
  repeat split; try done; [|apply watermark_le_refl].
  unfold spec.queue_in_range, spec.total_entries in *. cbn.
  apply Forall_app. split; [done|].
  induction nums as [|num nums IH]; cbn [enqueue_accepted]; [constructor|].
  destruct (_ && _) eqn:Haccepted; [|exact IH].
  apply Forall_cons. split; [|exact IH].
  apply andb_prop in Haccepted as [[_ Hle%bool_decide_eq_true]%andb_prop _]. exact Hle.
Qed.

(** Queueing the new entries appends indices up to the number of entries. *)
Lemma attempt_update_queue_preserved latest before self :
  spec.total_entries self = spec.total_entries before ->
  spec.status_keys_in_range self ->
  spec.queue_in_range self ->
  spec.watermark_le (latest_entry_number (feed_state before))
    (latest_entry_number (feed_state self)) ->
  match attempt_update_queue latest self with
  | inl (_, after) | inr after => spec.preserved before after
  end.
Proof.
  intros Hn Hkeys Hqueue Hw. unfold attempt_update_queue.
  case_bool_decide; [done|]. repeat split; try done.
  unfold spec.queue_in_range, spec.total_entries in *. cbn.
  apply Forall_app. split; [done|].
  apply Forall_fmap, list.Forall_forall. intros i Hi%elem_of_seqZ. cbn. lia.
Qed.

(** Planning the backlog sets a watermark only where there was none. *)
Lemma attempt_update_plan_preserved self :
  spec.status_keys_in_range self ->
  spec.queue_in_range self ->
  match attempt_update_plan self with
  | inl (_, after) | inr after => spec.preserved self after
  end.
Proof.
  intros Hkeys Hqueue. unfold attempt_update_plan. cbv zeta.
  destruct (latest_entry_number (feed_state self)) as [latest|] eqn:Hlatest.
  { apply attempt_update_queue_preserved; try done. apply watermark_le_refl. }
  assert (forall after,
            spec.total_entries after = spec.total_entries self ->
            spec.status_keys_in_range after ->
            spec.queue_in_range after ->
            spec.preserved self after) as Hunset.
  { intros after Hn Hkeys' Hqueue'. repeat split; try done. by rewrite Hlatest. }
  destruct (py.truthy (download_backlog self)); [|by apply Hunset].
  destruct (backlog_limit self) as [limit|];
    repeat case_bool_decide;
    try (apply attempt_update_queue_preserved; try done; by rewrite Hlatest).
  by apply preserved_refl.
Qed.

(** C9 (as stated, does not hold): the drain was to keep every status key
    below the number of entries whatever the queue holds.  It does not
    check the index it pops, and a Python list accepts the negative
    subscript an index above the feed length turns into: with two entries
    and item 3 queued, [entries[-1]] is fetched and the flag of key 2 is
    set. *)
Lemma download_queue_status_key_out_of_range :
  let self := fixtures.sub_with (take 2 fixtures.ten_entries) (Some 0) [(3, false)] in
  let after :=
    (download_queue fixtures.fake_downloader fixtures.url_dest fixtures.same_directory
       self []).1.2 in
  spec.status_keys_in_range self
  /\ spec.total_entries after = 2
  /\ entries_state_dict (feed_state after) !! 2 = Some true
  /\ ~ spec.status_keys_in_range after.
Proof.
  cbv zeta. split; [apply map_Forall_empty|].
  assert (entries_state_dict
            (feed_state
               (download_queue fixtures.fake_downloader fixtures.url_dest
                  fixtures.same_directory
                  (fixtures.sub_with (take 2 fixtures.ten_entries) (Some 0) [(3, false)])
                  []).1.2) !! 2 = Some true) as Hkey by (vm_compute; reflexivity).
  split; [vm_compute; reflexivity|]. split; [exact Hkey|].
  intros Hkeys. specialize (Hkeys 2 true Hkey). vm_compute in Hkeys. discriminate Hkeys.
Qed.

(** C9 (amended): the backlog planning and queueing of [attempt_update],
    the drain of [download_queue] (however it ends) and [enqueue] never
    move a watermark that is set backwards or unset it, whatever the
    subscription holds.  And as long as no queued index is above the number
    of entries -- which [enqueue] and the backlog planning guarantee for
    what they append -- each of them keeps every key of [entries_state_dict]
    below the number of entries and keeps the queue within that bound. *)
Theorem feed_state_operations_preserve_invariant
    (downloader : list DownloadCall -> DownloadCall -> DownloadOutcome)
    (_get_dest : Subscription -> string -> string -> option string -> string)
    (path_join : option string -> string -> option string)
    (self : Subscription) (nums : list Z) (dl : list DownloadCall) :
  (spec.watermark_kept self (download_queue downloader _get_dest path_join self dl).1.2
   /\ spec.watermark_kept self (enqueue nums self).2
   /\ match attempt_update_plan self with
      | inl (_, planned) => spec.watermark_kept self planned
      | inr planned =>
        spec.watermark_kept self planned
        /\ spec.watermark_kept self
             (download_queue downloader _get_dest path_join planned dl).1.2
      end)
  /\ (spec.status_keys_in_range self ->
      spec.queue_in_range self ->
      spec.preserved self (download_queue downloader _get_dest path_join self dl).1.2
      /\ spec.preserved self (enqueue nums self).2
      /\ match attempt_update_plan self with
         | inl (_, planned) => spec.preserved self planned
         | inr planned =>
           spec.preserved self planned
           /\ spec.preserved self
                (download_queue downloader _get_dest path_join planned dl).1.2
         end).
Proof.
  split.
  - split; [apply download_queue_loop_watermark|].
    split; [apply watermark_le_refl|].
    pose proof (attempt_update_plan_watermark self) as Hplan.
    destruct (attempt_update_plan self) as [[ret planned]|planned]; [exact Hplan|].
    split; [exact Hplan|].
    eapply watermark_le_trans; [exact Hplan | apply download_queue_loop_watermark].
  - intros Hkeys Hqueue. split; [by apply download_queue_loop_preserved|].
    split; [by apply enqueue_preserved|].
    pose proof (attempt_update_plan_preserved self Hkeys Hqueue) as Hplan.
    destruct (attempt_update_plan self) as [[ret planned]|planned]; [exact Hplan|].
    split; [exact Hplan|]. eapply preserved_trans; [exact Hplan|].
    destruct Hplan as (_ & Hkeys' & Hqueue' & _). by apply download_queue_loop_preserved.
Qed.

Lemma feed_state_operations_preserve_invariant_witness :
  let self := fixtures.sub_with fixtures.ten_entries (Some 7) [(9, false)] in
  spec.preserved self
    (download_queue fixtures.fake_downloader fixtures.url_dest fixtures.same_directory
       self []).1.2
  /\ spec.preserved self (enqueue [3; 12] self).2
  /\ match attempt_update_plan self with
     | inl (_, planned) => spec.preserved self planned
     | inr planned =>
       spec.preserved self planned
       /\ spec.preserved self
            (download_queue fixtures.fake_downloader fixtures.url_dest
               fixtures.same_directory planned []).1.2
     end.
Proof.
  apply (proj2 (feed_state_operations_preserve_invariant fixtures.fake_downloader
                  fixtures.url_dest fixtures.same_directory
                  (fixtures.sub_with fixtures.ten_entries (Some 7) [(9, false)])
                  [3; 12] [])).
  - apply map_Forall_empty.
  - repeat constructor. vm_compute. discriminate.
Defined.

(** ** Listing subscriptions *)

(** The status of a subscription whose watermark is set is its position,
    padded to the width of the total, the total, its name and the
    watermark less one. *)
Lemma get_status_line index total_subs self latest :
  latest_entry_number (feed_state self) = Some latest ->
  get_status index total_subs self =
  py.Return (zfill (String.length (str total_subs)) (str (index + 1)) +:+ "/"
             +:+ str total_subs +:+ " - '" +:+ name self +:+ "' |" +:+ str (latest - 1)
             +:+ "|").
Proof. intros Hlatest. unfold get_status. rewrite Hlatest. reflexivity. Qed.

(** The listing loop logs one line per subscription until it meets one
    without a watermark, where the [TypeError] ends it. *)
Lemma list_loop_outcome num_subs i subscriptions logged :
  (Forall (fun sub => is_Some (latest_entry_number (feed_state sub))) subscriptions
   /\ exists lines,
        list_loop num_subs i subscriptions logged = (py.Return (), lines)
        /\ length lines = (length logged + length subscriptions)%nat)
  \/ (Exists (fun sub => latest_entry_number (feed_state sub) = None) subscriptions
      /\ exists lines,
           list_loop num_subs i subscriptions logged = (py.Raise py.TypeError, lines)
           /\ (length lines < length logged + length subscriptions)%nat).
Proof.
  revert i logged. induction subscriptions as [|sub rest IH]; intros i logged.
  - left. split; [constructor|]. exists logged. split; [reflexivity | cbn; lia].
  - cbn [list_loop]. unfold get_status.
    destruct (latest_entry_number (feed_state sub)) as [latest|] eqn:Hlatest.
    + destruct (IH (i + 1) (logged ++
        [zfill (String.length (str num_subs)) (str (i + 1)) +:+ "/" +:+ str num_subs
         +:+ " - '" +:+ name sub +:+ "' |" +:+ str (latest - 1) +:+ "|"]))
        as [(Hall & lines & Hloop & Hlen)|(Hsome & lines & Hloop & Hlen)];
        rewrite length_app in Hlen; cbn in Hlen.
      * left. split; [constructor; [by rewrite Hlatest | done]|].
        exists lines. split; [exact Hloop | cbn; lia].
      * right. split; [by apply Exists_cons_tl|].
        exists lines. split; [exact Hloop | cbn; lia].
    + right. split; [by apply Exists_cons_hd|].
      exists logged. split; [reflexivity | cbn; lia].
Qed.

(** C10: [get_status] subtracts one from the watermark, so on a
    subscription whose watermark is still unset it raises a [TypeError] and
    returns no status; it returns a status line exactly when the watermark
    is set.  [Config.list] calls it for each subscription in turn, so the
    listing ends in that [TypeError] as soon as one subscription has no
    watermark, and logs a line for every subscription otherwise. *)
Theorem get_status_needs_watermark index total_subs self subscriptions :
  ((latest_entry_number (feed_state self) = None
    /\ get_status index total_subs self = py.Raise py.TypeError)
   \/ (exists latest line,
         latest_entry_number (feed_state self) = Some latest
         /\ get_status index total_subs self = py.Return line))
  /\ ((Forall (fun sub => is_Some (latest_entry_number (feed_state sub))) subscriptions
       /\ exists lines,
            list_ subscriptions = (py.Return (), lines)
            /\ length lines = length subscriptions)
      \/ (Exists (fun sub => latest_entry_number (feed_state sub) = None) subscriptions
          /\ exists lines,
               list_ subscriptions = (py.Raise py.TypeError, lines)
               /\ (length lines < length subscriptions)%nat)).
Proof.
  split.
  - destruct (latest_entry_number (feed_state self)) as [latest|] eqn:Hlatest.
    + right. eexists latest, _. split; [reflexivity|]. by apply get_status_line.
    + left. split; [reflexivity|]. unfold get_status. by rewrite Hlatest.
  - exact (list_loop_outcome (Z.of_nat (length subscriptions)) 0 subscriptions []).
Qed.

(** The test subscription before its first update cannot be listed; with
    the watermark at 9 its line reads 8. *)
Example get_status_examples :
  get_status 0 12 (fixtures.sub_with fixtures.ten_entries None []) = py.Raise py.TypeError
  /\ get_status 0 12 (fixtures.sub_with fixtures.ten_entries (Some 9) [])
     = py.Return "01/12 - 'bar' |8|".
Proof. split; vm_compute; reflexivity. Qed.

(** * Further properties *)

(** ** The cache round trip *)

(** A subscription encodes exactly when it has [use_title_as_filename],
    and what is written for it decodes. *)
Lemma decode_of_encoded sub :
  match use_title_as_filename sub with
  | py.Unset => encode_subscription sub = py.Raise py.AttributeError
  | py.Attr _ =>
    exists encoded,
      encode_subscription sub = py.Return encoded
      /\ decode_subscription encoded = Some (spec.cache_image sub)
  end.
Proof.
  destruct sub as [nm cu pu tu dir bk lim [|ut] [es st q lm et lat hs]];
    [reflexivity|].
  eexists. split; reflexivity.
Qed.

(** [encode_subscription] raises an [AttributeError] on a subscription
    that has no [use_title_as_filename], as the constructor leaves it, and
    on no other.  Whatever it writes, [decode_subscription] reads back:
    name, both URLs, directory, the three policy fields and, of the feed
    state, entries, status flags, queue, watermark and etag.  What does not
    come back is [_temp_url], which the decoded object does not even have,
    the date of the last change (written as [None]) and the mark of a state
    that was never loaded; a subscription comes back unchanged exactly when
    it had none of these. *)
Theorem decode_encode_subscription sub :
  (encode_subscription sub = py.Raise py.AttributeError
   <-> use_title_as_filename sub = py.Unset)
  /\ (use_title_as_filename sub <> py.Unset ->
      exists encoded, encode_subscription sub = py.Return encoded)
  /\ (forall encoded,
        encode_subscription sub = py.Return encoded ->
        decode_subscription encoded = Some (spec.cache_image sub))
  /\ spec.cache_image (spec.cache_image sub) = spec.cache_image sub
  /\ (spec.cache_image sub = sub <->
      _temp_url sub = py.Unset
      /\ last_modified (feed_state sub) = None
      /\ has_state (feed_state sub) = true).
Proof.
  pose proof (decode_of_encoded sub) as Hcodec.
  destruct sub as [nm cu pu tu dir bk lim ut [es st q lm et lat hs]].
  cbn [use_title_as_filename] in *.
  split; [|split; [|split; [|split]]].
  - destruct ut as [|ut]; [done|].
    destruct Hcodec as (encoded & -> & _). split; discriminate.
  - destruct ut as [|ut]; [done|]. intros _.
    destruct Hcodec as (encoded & -> & _). eauto.
  - intros encoded Hencoded. destruct ut as [|ut]; [congruence|].
    destruct Hcodec as (encoded' & Hencoded' & Hdecoded). congruence.
  - reflexivity.
  - unfold spec.cache_image, spec.cached_feed_state. cbn. split.
    + intros [= <- <- <-]. done.
    + intros (-> & -> & ->). reflexivity.
Qed.

(** The records [save_cache] writes: one for each subscription, if all of
    them encode. *)
Lemma encode_subscriptions_outcome subs :
  (Exists (fun sub => use_title_as_filename sub = py.Unset) subs
   /\ encode_subscriptions subs = py.Raise py.AttributeError)
  \/ (Forall (fun sub => use_title_as_filename sub <> py.Unset) subs
      /\ exists dicts,
           encode_subscriptions subs = py.Return dicts
           /\ Forall2 (fun sub encoded => decode_subscription encoded
                                          = Some (spec.cache_image sub)) subs dicts).
Proof.
  induction subs as [|sub subs IH].
  - right. split; [constructor|]. exists []. split; [reflexivity | constructor].
  - cbn [encode_subscriptions]. pose proof (decode_of_encoded sub) as Hcodec.
    destruct (use_title_as_filename sub) as [|ut] eqn:Hut.
    + left. split; [by apply Exists_cons_hd | by rewrite Hcodec].
    + destruct Hcodec as (encoded & -> & Hdecoded).
      destruct IH as [[Hsome ->]|(Hall & dicts & -> & Hdicts)].
      * left. split; [by apply Exists_cons_tl | reflexivity].
      * right. split; [constructor; [by rewrite Hut | exact Hall]|].
        exists (encoded :: dicts). split; [reflexivity | by constructor].
Qed.

(** A cache written by [save_cache] cannot be read back.  If one of the
    subscriptions has no [use_title_as_filename], [save_cache] raises and
    leaves the cache file empty, which [_load_cache_settings] takes for no
    cache.  If all of them have it the file is written, and loading it
    raises at the first subscription, entered under its name and not under
    its URL; every later one is lost.  Only the cache of an empty list loads,
    to nothing. *)
Theorem load_cache_of_saved subs cache_map :
  ((save_cache subs).1 = py.Raise py.AttributeError
   <-> Exists (fun sub => use_title_as_filename sub = py.Unset) subs)
  /\ ((save_cache subs).1 = py.Raise py.AttributeError ->
      (save_cache subs).2 = None
      /\ _load_cache_settings (save_cache subs).2 cache_map = (py.Return (), cache_map))
  /\ ((save_cache subs).1 = py.Return () ->
      _load_cache_settings (save_cache subs).2 cache_map =
      match subs with
      | [] => (py.Return (), cache_map)
      | first :: _ =>
        (py.Raise py.AttributeError,
         mkCacheMap (<[name first := spec.cache_image first]> (by_name cache_map))
           (by_url cache_map))
      end)
  /\ ((save_cache subs).1 = py.Return () \/ (save_cache subs).1 = py.Raise py.AttributeError).
Proof.
  unfold save_cache.
  destruct (encode_subscriptions_outcome subs) as [[Hsome ->]|(Hall & dicts & -> & Hdicts)];
    cbn [fst snd].
  - split; [done|]. split; [done|]. split; [discriminate | by right].
  - split; [|split; [discriminate|split; [|by left]]].
    + split; [discriminate|]. intros Hsome.
      apply Exists_exists in Hsome as (sub & Hin & Hunset).
      rewrite Forall_forall in Hall. by destruct (Hall sub Hin).
    + intros _. destruct Hdicts as [|first encoded subs dicts Hfirst _].
      * reflexivity.
      * cbn [_load_cache_settings]. rewrite load_cache_first_record, Hfirst.
        reflexivity.
Qed.

(** ** Reading the user's configuration *)

(** With the settings [Config] keeps -- which have no [download_backlog]
    key, and to which [_load_user_settings] adds none --
    [parse_from_user_yaml] never yields a subscription: an entry that lacks
    the name or the URL gives [None], and every other entry ends in the
    [KeyError] of [defaults["download_backlog"]], whether the entry sets
    [download_backlog] itself or not. *)
Theorem parse_from_user_yaml_with_config_settings path_join sub_yaml settings :
  parse_from_user_yaml path_join sub_yaml (settings_defaults settings) =
  if spec.has_name_and_url sub_yaml then py.Raise py.KeyError else py.Return None.
Proof.
  unfold parse_from_user_yaml, spec.has_name_and_url.
  destruct (y_name sub_yaml), (y_url sub_yaml); reflexivity.
Qed.

(** So [_load_user_settings] leaves the subscription list empty or does
    not return: as soon as the configuration lists one subscription with a
    name and a URL, loading it ends in a [KeyError]; otherwise it returns the
    merged settings and no subscription. *)
Theorem load_user_settings_never_yields_subscription path_join yaml_settings settings :
  _load_user_settings path_join (Some yaml_settings) settings =
  if existsb spec.has_name_and_url (default [] (yaml_subscriptions yaml_settings))
  then py.Raise py.KeyError
  else py.Return (merge_settings yaml_settings settings, []).
Proof.
  unfold _load_user_settings. rewrite parse_subscriptions_with_config_settings.
  by destruct (existsb _ _).
Qed.

(** ** Commands on one subscription *)

(** [_validate_command] compares the index with the subscription list
    before the state is loaded, and lets the length of the list itself
    through.  So the first command of a run, which meets the empty list of
    a new [Config], is refused for every index but 0, whatever the
    configuration holds; and on a loaded list the index one past the end is
    not refused but ends in the [IndexError] of the lookup.  Every index of
    the list gives that subscription, every other one is refused. *)
Theorem command_subscription_index {A : Type} (loaded : py.outcome (list A))
    (subs : list A) (sub_index : Z) :
  (sub_index <> 0 ->
   command_subscription loaded sub_index (mkConfig false []) = BadCommandError)
  /\ command_subscription loaded (Z.of_nat (length subs)) (mkConfig true subs)
     = Escaped py.IndexError
  /\ (forall sub, subs !! Z.to_nat sub_index = Some sub -> 0 <= sub_index ->
      command_subscription loaded sub_index (mkConfig true subs)
      = Done (mkConfig true subs, sub))
  /\ (sub_index < 0 \/ sub_index > Z.of_nat (length subs) ->
      command_subscription loaded sub_index (mkConfig true subs) = BadCommandError).
Proof.
  unfold command_subscription, _validate_command, _ensure_loaded. cbn.
  repeat split.
  - intros Hne. repeat case_bool_decide; cbn; try done; lia.
  - rewrite !bool_decide_eq_false_2 by lia. cbn. unfold py.index.
    rewrite bool_decide_eq_false_2, bool_decide_eq_false_2 by lia. reflexivity.
  - intros sub Hsub Hpos. apply lookup_lt_Some in Hsub as Hlt.
    rewrite !bool_decide_eq_false_2 by lia. cbn. unfold py.index.
    rewrite bool_decide_eq_true_2 by lia. by rewrite Hsub.
  - intros [Hneg|Hbig]; repeat case_bool_decide; cbn; try done; lia.
Qed.

(** ** What fetching the feed changes *)

Lemma fetch_frame_refl self : spec.fetch_frame self self.
Proof. by repeat split. Qed.

Lemma fetch_frame_trans a b c :
  spec.fetch_frame a b -> spec.fetch_frame b c -> spec.fetch_frame a c.
Proof.
  unfold spec.fetch_frame. intros Hab Hbc.
  destruct_and!. repeat split; congruence.
Qed.

(** Changing the current URL is within the frame. *)
Lemma fetch_frame_current_url url self : spec.fetch_frame self (set_current_url url self).
Proof. by repeat split. Qed.

Lemma fetch_frame_restored temp self : spec.fetch_frame self (restore_current_url temp self).
Proof. destruct temp; [apply fetch_frame_current_url | apply fetch_frame_refl]. Qed.

Section Fetching.

Context (feedparser_parse : list Request -> Request -> Parsed).

Local Abbreviation _feedparser_parse_with_options :=
  (subscription._feedparser_parse_with_options feedparser_parse).
Local Abbreviation get_feed_rec := (subscription.get_feed_rec feedparser_parse).
Local Abbreviation get_feed := (subscription.get_feed feedparser_parse).

(** One parse: the request it makes, and what it leaves alone. *)
Lemma parse_request_and_frame self net result self' net' :
  _feedparser_parse_with_options self net = (result, self', net') ->
  net' = net ++ [spec.request_of self]
  /\ spec.fetch_frame self self'
  /\ entries (feed_state self') = entries (feed_state self)
  /\ _current_url self' = _current_url self
  /\ _temp_url self' = _temp_url self.
Proof.
  destruct self as [nm cu pu tu dir bk lim ut [es st q lm et lat hs]].
  unfold subscription._feedparser_parse_with_options, spec.request_of, spec.fetch_frame.
  cbn. intros H.
  assert (net' = net ++ [if hs then mkRequest cu et lm else mkRequest cu None None]
          /\ exists et' lm',
               self' = mkSubscription nm cu pu tu dir bk lim ut
                         (mkFeedState es st q lm' et' lat hs)) as (-> & et' & lm' & ->).
  { destruct hs, lm, et; cbn in H;
      repeat case_match; simplify_eq; (split; [reflexivity|]);
      unfold with_feed_state, store_last_modified; cbn;
      repeat case_match; cbn; eauto. }
  done.
Qed.

(** Handling the status leaves the feed state as it is and stays within
    the frame; and an object that has [_temp_url] keeps having it. *)
Lemma handle_http_codes_frame parsed self code self' :
  _handle_http_codes parsed self = (code, self') ->
  spec.fetch_frame self self' /\ feed_state self' = feed_state self
  /\ (_temp_url self' = py.Unset -> _temp_url self = py.Unset).
Proof.
  destruct self as [nm cu pu tu dir bk lim ut fs].
  unfold _handle_http_codes. intros H.
  repeat case_match; simplify_eq; by repeat split.
Qed.

(** The frame of [get_feed], how it ends, and the entries. *)
Lemma get_feed_rec_effects fuel attempt_count self net outcome self' net' :
  get_feed_rec fuel attempt_count self net = Some (outcome, self', net') ->
  spec.fetch_frame self self'
  /\ (outcome = py.Return SUCCESS \/ outcome = py.Return UNNEEDED
      \/ outcome = py.Return FAILURE
      \/ (outcome = py.Raise py.AttributeError /\ _temp_url self = py.Unset))
  /\ (outcome <> py.Return SUCCESS ->
      entries (feed_state self') = entries (feed_state self))
  /\ exists requests, net' = net ++ requests.
Proof.
  revert attempt_count self net outcome self' net'.
  induction fuel as [|fuel IH]; intros attempt_count self net outcome self' net' Hget;
    [discriminate|].
  assert (exists requests, net = net ++ requests) as Hnone
    by (exists []; by rewrite app_nil_r).
  cbn [subscription.get_feed_rec] in Hget.
  case_bool_decide;
    [simplify_eq; split_and!; auto using fetch_frame_refl|].
  destruct (py.none_or_empty (_current_url self));
    [simplify_eq; split_and!; auto using fetch_frame_refl|].
  destruct (_feedparser_parse_with_options self net) as [[parse self1] net1] eqn:Hparse.
  apply parse_request_and_frame in Hparse as (-> & Hframe1 & Hentries1 & _ & Htemp1).
  destruct parse as [| |parsed];
    [simplify_eq; split_and!; eauto..|].
  destruct (_handle_http_codes parsed self1) as [code self2] eqn:Hcode.
  apply handle_http_codes_frame in Hcode as (Hframe2 & Hfs2 & Htemp2).
  pose proof (fetch_frame_trans _ _ _ Hframe1 Hframe2) as Hframe.
  assert (entries (feed_state self2) = entries (feed_state self)) as Hentries2
    by (rewrite Hfs2; exact Hentries1).
  destruct code.
  - simplify_eq. split_and!; eauto. done.
  - simplify_eq. split_and!; eauto.
  - simplify_eq. split_and!; eauto.
  - destruct (_temp_url self2) as [|temp] eqn:Htemp; cbn [py.getattr] in Hget.
    { simplify_eq. split_and!; eauto.
      do 3 right. split; [reflexivity|]. rewrite <- Htemp1. by apply Htemp2. }
    destruct (get_feed_rec fuel _ self2 _) as [[[ended self3] net3]|] eqn:Hrec;
      [|discriminate].
    apply IH in Hrec as (Hframe3 & Hended & Hentries3 & requests & ->).
    assert (spec.fetch_frame self self3) as Hall by (eapply fetch_frame_trans; eassumption).
    assert (exists more, (net ++ [spec.request_of self]) ++ requests = net ++ more) as Hnet
      by (rewrite <- app_assoc; eauto).
    destruct ended as [new_result|e]; simplify_eq.
    + split; [eapply fetch_frame_trans; [exact Hall | apply fetch_frame_restored]|].
      split; [destruct Hended as [?|[?|[?|[? ?]]]]; auto; congruence|].
      split; [|exact Hnet].
      intros Hne. destruct temp; cbn; rewrite (Hentries3 Hne); exact Hentries2.
    + split; [exact Hall|].
      split; [destruct Hended as [?|[?|[?|[? ?]]]]; congruence|].
      split; [|exact Hnet].
      intros Hne. rewrite (Hentries3 Hne). exact Hentries2.
Qed.

(** [get_feed] always comes to an end, and however it ends -- with a
    result, or with the [AttributeError] of a missing [_temp_url] -- it has
    not touched the name, the provided URL, the directory, the backlog and
    file-name policy, the queue, the status flags, the watermark or the mark
    of a loaded state, whatever the source answers and however many
    redirects it follows; and it only ever adds to the log of requests. *)
Theorem get_feed_frame attempt_count self net :
  exists outcome self' requests,
    get_feed attempt_count self net = Some (outcome, self', net ++ requests)
    /\ spec.fetch_frame self self'.
Proof.
  destruct (get_feed_rec_returns feedparser_parse (get_feed_fuel attempt_count)
              attempt_count self net) as (outcome & self' & net' & Hget & _);
    [unfold get_feed_fuel, spec.attempts_left; lia|].
  destruct (get_feed_rec_effects _ _ _ _ _ _ _ Hget) as (Hframe & _ & _ & requests & ->).
  by exists outcome, self', requests.
Qed.

(** [get_feed] returns [SUCCESS], [UNNEEDED] or [FAILURE], never the
    [ATTEMPT_AGAIN] it uses inside, or it raises an [AttributeError]; it can
    raise only on a subscription that has no [_temp_url], one decoded from
    the cache and not redirected temporarily since.  Unless it returns
    [SUCCESS] the entries are the ones the subscription had before. *)
Theorem get_feed_result attempt_count self net :
  exists outcome self' net',
    get_feed attempt_count self net = Some (outcome, self', net')
    /\ (outcome = py.Return SUCCESS \/ outcome = py.Return UNNEEDED
        \/ outcome = py.Return FAILURE
        \/ (outcome = py.Raise py.AttributeError /\ _temp_url self = py.Unset))
    /\ (outcome <> py.Return SUCCESS ->
        entries (feed_state self') = entries (feed_state self)).
Proof.
  destruct (get_feed_rec_returns feedparser_parse (get_feed_fuel attempt_count)
              attempt_count self net) as (outcome & self' & net' & Hget & _);
    [unfold get_feed_fuel, spec.attempts_left; lia|].
  destruct (get_feed_rec_effects _ _ _ _ _ _ _ Hget) as (_ & Hended & Hentries & _).
  by exists outcome, self', net'.
Qed.

(** Without a loaded state every request of [get_feed] goes out bare. *)
Lemma get_feed_rec_unconditional fuel attempt_count self net outcome self' net' :
  get_feed_rec fuel attempt_count self net = Some (outcome, self', net') ->
  has_state (feed_state self) = false ->
  exists requests, net' = net ++ requests /\ Forall spec.unconditional requests.
Proof.
  revert attempt_count self net outcome self' net'.
  induction fuel as [|fuel IH]; intros attempt_count self net outcome self' net' Hget Hfresh;
    [discriminate|].
  assert (exists requests, net = net ++ requests /\ Forall spec.unconditional requests)
    as Hnone by (exists []; by rewrite app_nil_r).
  cbn [subscription.get_feed_rec] in Hget.
  case_bool_decide; [by simplify_eq|].
  destruct (py.none_or_empty (_current_url self)); [by simplify_eq|].
  destruct (_feedparser_parse_with_options self net) as [[parse self1] net1] eqn:Hparse.
  apply parse_request_and_frame in Hparse as (-> & Hframe1 & _).
  assert (Forall spec.unconditional [spec.request_of self]) as Hone.
  { constructor; [|constructor]. unfold spec.request_of. by rewrite Hfresh. }
  destruct parse as [| |parsed]; [simplify_eq; eauto..|].
  destruct (_handle_http_codes parsed self1) as [code self2] eqn:Hcode.
  apply handle_http_codes_frame in Hcode as (Hframe2 & _ & _).
  destruct code; [simplify_eq; eauto..|].
  destruct (py.getattr (_temp_url self2)) as [temp|e]; [|simplify_eq; eauto].
  destruct (get_feed_rec fuel _ self2 _) as [[[ended self3] net3]|] eqn:Hrec;
    [|discriminate].
  apply IH in Hrec as (requests & -> & Hrequests).
  - exists (spec.request_of self :: requests).
    split; [destruct ended; simplify_eq; by rewrite <- app_assoc|].
    constructor; [by inversion Hone | exact Hrequests].
  - pose proof (fetch_frame_trans _ _ _ Hframe1 Hframe2) as Hframe.
    unfold spec.fetch_frame in Hframe. destruct_and!. congruence.
Qed.

(** The four ways [_feedparser_parse_with_options] calls the parser come
    to one rule: the stored etag and date go with the request if the feed
    state was loaded from the cache, and nothing goes with it otherwise.
    [get_feed] never changes that mark, so a subscription whose feed state
    was not loaded from the cache fetches unconditionally every time,
    whatever validators earlier answers have left in it. *)
Theorem conditional_fetch_only_for_loaded_state attempt_count self net :
  (_feedparser_parse_with_options self net).2 = net ++ [spec.request_of self]
  /\ (has_state (feed_state self) = false ->
      exists result self' requests,
        get_feed attempt_count self net = Some (result, self', net ++ requests)
        /\ Forall spec.unconditional requests).
Proof.
  split.
  - destruct (_feedparser_parse_with_options self net) as [[parse self1] net1] eqn:Hparse.
    by apply parse_request_and_frame in Hparse as (-> & _).
  - intros Hfresh.
    destruct (get_feed_rec_returns feedparser_parse (get_feed_fuel attempt_count)
                attempt_count self net) as (result & self' & net' & Hget & _);
      [unfold get_feed_fuel, spec.attempts_left; lia|].
    destruct (get_feed_rec_unconditional _ _ _ _ _ _ _ Hget Hfresh)
      as (requests & -> & Hrequests).
    by exists result, self', requests.
Qed.

(** A reply that carries a status other than 304 goes on to
    [_handle_http_codes]. *)
Lemma parse_with_status self net status :
  p_status (feedparser_parse net (spec.request_of self)) = Some status ->
  status <> 304 ->
  exists self1,
    _feedparser_parse_with_options self net
    = (ParseSuccess (feedparser_parse net (spec.request_of self)), self1,
       net ++ [spec.request_of self])
    /\ spec.fetch_frame self self1
    /\ entries (feed_state self1) = entries (feed_state self)
    /\ _current_url self1 = _current_url self
    /\ _temp_url self1 = _temp_url self.
Proof.
  intros Hstatus Hne.
  destruct (_feedparser_parse_with_options self net) as [[parse self1] net1] eqn:Hparse.
  pose proof (parse_request_and_frame _ _ _ _ _ Hparse) as (-> & Hrest).
  exists self1. split; [|exact Hrest]. f_equal. f_equal.
  destruct self as [nm cu pu tu dir bk lim ut [es st q lm et lat hs]].
  unfold subscription._feedparser_parse_with_options, spec.request_of in *. cbn in *.
  destruct hs, lm, et; cbn in *; rewrite Hstatus in Hparse; cbn in Hparse;
    rewrite (bool_decide_eq_false_2 (Some status = Some 304)) in Hparse by congruence;
    by simplify_eq.
Qed.

(** A status without a case of its own asks for another attempt and
    changes nothing. *)
Lemma handle_retried_status parsed self status :
  p_status parsed = Some status ->
  spec.retried_status status ->
  _handle_http_codes parsed self = (ATTEMPT_AGAIN, self).
Proof.
  intros Hstatus Hretried. unfold _handle_http_codes. rewrite Hstatus.
  unfold spec.retried_status in Hretried. rewrite list_elem_of_In in Hretried.
  cbn in Hretried.
  rewrite !(bool_decide_eq_false_2 (status = _)) by lia.
  rewrite bool_decide_eq_true_2 by lia. reflexivity.
Qed.

(** A 401 or a 410 ends the fetch with [FAILURE] after the one request
    and clears the current URL, leaving the provided one; from then on
    [get_feed] fails at once, without asking the source again, until the
    subscription is given a URL anew. *)
Theorem get_feed_gone attempt_count self net status :
  attempt_count <= MAX_RECURSIVE_ATTEMPTS ->
  py.none_or_empty (_current_url self) = false ->
  p_status (feedparser_parse net (spec.request_of self)) = Some status ->
  status = 401 \/ status = 410 ->
  exists self',
    get_feed attempt_count self net
    = Some (py.Return FAILURE, self', net ++ [spec.request_of self])
    /\ _current_url self' = None
    /\ _provided_url self' = _provided_url self
    /\ entries (feed_state self') = entries (feed_state self)
    /\ forall attempt_count' net',
         get_feed attempt_count' self' net' = Some (py.Return FAILURE, self', net').
Proof.
  intros Hbound Hurl Hstatus Hgone.
  destruct (parse_with_status self net status Hstatus) as (self1 & Hparse & Hframe & Hentries & _);
    [lia|].
  exists (set_current_url None self1).
  unfold subscription.get_feed, get_feed_fuel. cbn [subscription.get_feed_rec].
  rewrite bool_decide_eq_false_2 by lia. rewrite Hurl, Hparse.
  unfold _handle_http_codes. rewrite Hstatus.
  split; [by destruct Hgone as [-> | ->]|].
  split; [reflexivity|]. split; [apply Hframe|]. split; [exact Hentries|].
  intros attempt_count' net'. by case_bool_decide.
Qed.

(** A 404 ends the fetch with [FAILURE] after the one request and leaves
    both URLs and the entries as they were, so the next update asks the
    same URL again. *)
Theorem get_feed_not_found attempt_count self net :
  attempt_count <= MAX_RECURSIVE_ATTEMPTS ->
  py.none_or_empty (_current_url self) = false ->
  p_status (feedparser_parse net (spec.request_of self)) = Some 404 ->
  exists self',
    get_feed attempt_count self net
    = Some (py.Return FAILURE, self', net ++ [spec.request_of self])
    /\ _current_url self' = _current_url self
    /\ _provided_url self' = _provided_url self
    /\ _temp_url self' = _temp_url self
    /\ entries (feed_state self') = entries (feed_state self).
Proof.
  intros Hbound Hurl Hstatus.
  destruct (parse_with_status self net 404 Hstatus)
    as (self1 & Hparse & Hframe & Hentries & Hcurrent & Htemp); [lia|].
  exists self1.
  unfold subscription.get_feed, get_feed_fuel. cbn [subscription.get_feed_rec].
  rewrite bool_decide_eq_false_2 by lia. rewrite Hurl, Hparse.
  unfold _handle_http_codes. rewrite Hstatus. cbn.
  split; [reflexivity|]. split; [exact Hcurrent|]. split; [apply Hframe|]. by split.
Qed.

(** Against a source that keeps answering with a status the code has no
    case for, a subscription that has [_temp_url] spends every attempt the
    bound allows. *)
Lemma get_feed_rec_retried status fuel attempt_count self net temp :
  (forall net request, p_status (feedparser_parse net request) = Some status) ->
  spec.retried_status status ->
  (spec.attempts_left attempt_count < fuel)%nat ->
  py.none_or_empty (_current_url self) = false ->
  _temp_url self = py.Attr temp ->
  exists self' requests,
    get_feed_rec fuel attempt_count self net
    = Some (py.Return FAILURE, self', net ++ requests)
    /\ length requests = spec.attempts_left attempt_count
    /\ (temp = None -> _current_url self' = _current_url self)
    /\ entries (feed_state self') = entries (feed_state self).
Proof.
  intros Hstatus Hretried. revert attempt_count self net.
  induction fuel as [|fuel IH]; intros attempt_count self net Hfuel Hurl Hattr; [lia|].
  cbn [subscription.get_feed_rec].
  case_bool_decide as Hbound.
  { exists self, []. rewrite app_nil_r. split_and!; try done.
    unfold spec.attempts_left, MAX_RECURSIVE_ATTEMPTS in *. cbn. lia. }
  rewrite Hurl.
  assert (spec.attempts_left attempt_count = S (spec.attempts_left (attempt_count + 1)))
    as Hleft by (unfold spec.attempts_left, MAX_RECURSIVE_ATTEMPTS in *; lia).
  destruct (parse_with_status self net status (Hstatus _ _))
    as (self1 & -> & Hframe & Hentries & Hcurrent & Htemp).
  { intros ->. apply Hretried. apply list_elem_of_In. cbn. lia. }
  rewrite (handle_retried_status _ self1 status (Hstatus _ _) Hretried).
  rewrite Htemp, Hattr. cbn [py.getattr].
  destruct (IH (attempt_count + 1) self1 (net ++ [spec.request_of self]))
    as (self3 & requests & -> & Hlen & Hcurrent3 & Hentries3);
    [lia | by rewrite Hcurrent | by rewrite Htemp|].
  exists (restore_current_url temp self3), (spec.request_of self :: requests).
  rewrite <- app_assoc. split; [reflexivity|]. split; [cbn; lia|]. split.
  - intros ->. cbn. rewrite Hcurrent3 by reflexivity. exact Hcurrent.
  - destruct temp; cbn; congruence.
Qed.

(** When the source keeps answering with a status that is neither 200
    nor one the code has a case for (a 500, say), [get_feed] on a
    subscription that has [_temp_url] asks eleven times in a row, each time
    at once, and then gives up with [FAILURE]; the entries stay, and so
    does the current URL if no temporary redirect was ever seen.  On a
    subscription that has no [_temp_url], one decoded from the cache, the
    first such answer ends the call in an [AttributeError]: one request is
    made, and the URLs and the entries stay. *)
Theorem get_feed_retries_to_the_bound status self net :
  (forall net request, p_status (feedparser_parse net request) = Some status) ->
  spec.retried_status status ->
  py.none_or_empty (_current_url self) = false ->
  (forall temp,
     _temp_url self = py.Attr temp ->
     exists self' requests,
       get_feed 0 self net = Some (py.Return FAILURE, self', net ++ requests)
       /\ length requests = 11%nat
       /\ (temp = None -> _current_url self' = _current_url self)
       /\ entries (feed_state self') = entries (feed_state self))
  /\ (_temp_url self = py.Unset ->
      exists self',
        get_feed 0 self net
        = Some (py.Raise py.AttributeError, self', net ++ [spec.request_of self])
        /\ _current_url self' = _current_url self
        /\ _temp_url self' = py.Unset
        /\ entries (feed_state self') = entries (feed_state self)).
Proof.
  intros Hstatus Hretried Hurl. split.
  - intros temp Hattr.
    destruct (get_feed_rec_retried status (get_feed_fuel 0) 0 self net temp Hstatus Hretried)
      as (self' & requests & Hget & Hlen & Hrest);
      [unfold get_feed_fuel, spec.attempts_left; lia | exact Hurl | exact Hattr|].
    by exists self', requests.
  - intros Hunset.
    destruct (parse_with_status self net status (Hstatus _ _))
      as (self1 & Hparse & Hframe & Hentries & Hcurrent & Htemp).
    { intros ->. apply Hretried. apply list_elem_of_In. cbn. lia. }
    exists self1. unfold subscription.get_feed, get_feed_fuel.
    cbn [subscription.get_feed_rec].
    rewrite bool_decide_eq_false_2 by (unfold MAX_RECURSIVE_ATTEMPTS; lia).
    rewrite Hurl, Hparse.
    rewrite (handle_retried_status _ self1 status (Hstatus _ _) Hretried).
    rewrite Htemp, Hunset. by split_and!.
Qed.

End Fetching.

Lemma get_feed_gone_witness :
  let self := new_subscription "410" "410Test" None true None in
  exists self',
    get_feed fixtures.fake_parser 0 self []
    = Some (py.Return FAILURE, self', [] ++ [spec.request_of self])
    /\ _current_url self' = None
    /\ _provided_url self' = _provided_url self
    /\ entries (feed_state self') = entries (feed_state self)
    /\ forall attempt_count' net',
         get_feed fixtures.fake_parser attempt_count' self' net'
         = Some (py.Return FAILURE, self', net').
Proof.
  apply (get_feed_gone fixtures.fake_parser 0
           (new_subscription "410" "410Test" None true None) [] 410);
    [unfold MAX_RECURSIVE_ATTEMPTS; lia | reflexivity | reflexivity | by right].
Defined.

Lemma get_feed_not_found_witness :
  let self := new_subscription "404" "404Test" None true None in
  exists self',
    get_feed fixtures.fake_parser 0 self []
    = Some (py.Return FAILURE, self', [] ++ [spec.request_of self])
    /\ _current_url self' = _current_url self
    /\ _provided_url self' = _provided_url self
    /\ _temp_url self' = _temp_url self
    /\ entries (feed_state self') = entries (feed_state self).
Proof.
  apply (get_feed_not_found fixtures.fake_parser 0
           (new_subscription "404" "404Test" None true None) []);
    [unfold MAX_RECURSIVE_ATTEMPTS; lia | reflexivity | reflexivity].
Defined.

Lemma get_feed_retries_to_the_bound_witness :
  let self := new_subscription "valid" "500Test" None true None in
  let cached := fixtures.decoded "valid" "500Test" in
  (exists self' requests,
     get_feed fixtures.failing_parser 0 self [] = Some (py.Return FAILURE, self', [] ++ requests)
     /\ length requests = 11%nat
     /\ (@None string = None -> _current_url self' = _current_url self)
     /\ entries (feed_state self') = entries (feed_state self))
  /\ (exists self',
        get_feed fixtures.failing_parser 0 cached []
        = Some (py.Raise py.AttributeError, self', [] ++ [spec.request_of cached])
        /\ _current_url self' = _current_url cached
        /\ _temp_url self' = py.Unset
        /\ entries (feed_state self') = entries (feed_state cached)).
Proof.
  assert (spec.retried_status 500) as Hretried.
  { unfold spec.retried_status. intros Hin.
    repeat (apply elem_of_cons in Hin as [Hin|Hin]; [discriminate Hin|]).
    by apply elem_of_nil in Hin. }
  split.
  - apply (proj1 (get_feed_retries_to_the_bound fixtures.failing_parser 500
                    (new_subscription "valid" "500Test" None true None) []
                    (fun _ _ => eq_refl) Hretried eq_refl) None eq_refl).
  - apply (proj2 (get_feed_retries_to_the_bound fixtures.failing_parser 500
                    (fixtures.decoded "valid" "500Test") []
                    (fun _ _ => eq_refl) Hretried eq_refl) eq_refl).
Defined.

(** ** Downloads *)

Section Downloads.

Context (downloader : list DownloadCall -> DownloadCall -> DownloadOutcome)
  (_get_dest : Subscription -> string -> string -> option string -> string)
  (path_join : option string -> string -> option string).

Local Abbreviation download_enclosures :=
  (subscription.download_enclosures downloader _get_dest).
Local Abbreviation download_queue_loop :=
  (subscription.download_queue_loop downloader _get_dest path_join).
Local Abbreviation download_queue :=
  (subscription.download_queue downloader _get_dest path_join).
Local Abbreviation entry_directory := (spec.entry_directory path_join).
Local Abbreviation enclosure_call := (spec.enclosure_call _get_dest).


(** A subscript within the list finds an element; one that is neither
    within it nor a negative one counting from its end finds none. *)
Lemma index_in_range {A : Type} (l : list A) k :
  0 <= k < Z.of_nat (length l) -> is_Some (py.index l k).
Proof.
  intros Hk. unfold py.index. rewrite bool_decide_eq_true_2 by lia.
  apply lookup_lt_is_Some. lia.
Qed.

Lemma index_out_of_range {A : Type} (l : list A) k :
  k < - Z.of_nat (length l) \/ Z.of_nat (length l) <= k -> py.index l k = None.
Proof.
  intros Hk. unfold py.index. by rewrite !bool_decide_eq_false_2 by lia.
Qed.

(** With a downloader that completes every call, all enclosures are
    fetched. *)
Lemma download_enclosures_complete self entry_title dir overwrite enclosures dl :
  (forall dl call, downloader dl call = Downloaded) ->
  download_enclosures self entry_title dir overwrite enclosures dl
  = (Downloaded, dl ++ map (enclosure_call self entry_title dir overwrite) enclosures).
Proof.
  intros Hcomplete. revert dl. induction enclosures as [|url rest IH]; intros dl.
  - cbn. by rewrite app_nil_r.
  - cbn [subscription.download_enclosures]. rewrite Hcomplete, IH, <- app_assoc.
    reflexivity.
Qed.

(** The drain of a queue whose every download completes. *)
Lemma download_queue_loop_drains pending self dl latest :
  (forall dl call, downloader dl call = Downloaded) ->
  queue (feed_state self) = pending ->
  latest_entry_number (feed_state self) = Some latest ->
  Forall (fun item : Z * bool => 1 <= item.1 <= spec.total_entries self) pending ->
  exists dl',
    download_queue_loop pending self dl = (py.Return (), spec.drained latest self, dl').
Proof.
  intros Hcomplete. revert self dl latest.
  induction pending as [|[i overwrite] rest IH]; intros self dl latest Hq Hlatest Hrange.
  - exists dl. cbn. f_equal. f_equal.
    destruct self as [nm cu pu tu dir bk lim ut [es st q lm et lat hs]].
    cbn in *. by subst.
  - apply Forall_cons in Hrange as [Hi Hrest]. cbn in Hi.
    destruct (index_in_range (entries (feed_state self)) (spec.total_entries self - i))
      as [entry Hentry]; [unfold spec.total_entries in *; lia|].
    erewrite download_queue_loop_completed;
      [|exact Hentry | apply download_enclosures_complete, Hcomplete | exact Hlatest].
    match goal with
    | |- context [subscription.download_queue_loop _ _ _ rest ?s ?d] =>
      destruct (IH s d (Z.max latest (i - 1))) as [dl' ->];
        [reflexivity | reflexivity | exact Hrest|]
    end.
    exists dl'. f_equal. f_equal.
    destruct self as [nm cu pu tu dir bk lim ut [es st q lm et lat hs]].
    cbn in Hq. subst q. reflexivity.
Qed.

(** The flags a drain sets, and how far it takes the watermark. *)
Lemma drained_status_lookup items status key :
  spec.drained_status items status !! key =
  if bool_decide (key + 1 ∈ items.*1) then Some true else status !! key.
Proof.
  revert status. induction items as [|[i overwrite] rest IH]; intros status.
  - cbn. by rewrite bool_decide_eq_false_2 by (intros Hin; by apply elem_of_nil in Hin).
  - change (spec.drained_status ((i, overwrite) :: rest) status)
      with (spec.drained_status rest (<[i - 1 := true]> status)).
    rewrite IH. cbn [fmap list_fmap fst].
    destruct (decide (key + 1 = i)) as [<-|Hne].
    + rewrite (bool_decide_eq_true_2 (_ ∈ _ :: _)) by apply list_elem_of_here.
      case_bool_decide; [reflexivity|].
      replace (key + 1 - 1) with key by lia. by rewrite lookup_insert_eq.
    + rewrite lookup_insert_ne by lia.
      case_bool_decide as Hrest; case_bool_decide as Hall; try done; exfalso.
      * apply Hall. by apply elem_of_cons; right.
      * apply elem_of_cons in Hall as [Hhead|Htail]; [by apply Hne | by apply Hrest].
Qed.

Lemma drained_watermark_ge items start latest :
  start <= latest -> start <= spec.drained_watermark items latest.
Proof.
  revert latest. induction items as [|item rest IH]; intros latest Hle; [exact Hle|].
  cbn. apply IH. lia.
Qed.


(** An item outside the feed ends the drain at once: an index below 1, or
    above twice the number of entries, makes the entry lookup fail, and
    [download_queue] leaves with an [IndexError] before any download, the
    item gone from the queue and the items behind it still waiting. *)
Theorem download_queue_index_error self dl i overwrite rest :
  queue (feed_state self) = (i, overwrite) :: rest ->
  i < 1 \/ 2 * spec.total_entries self < i ->
  download_queue self dl
  = (py.Raise py.IndexError, with_feed_state (set_queue rest) self, dl).
Proof.
  intros Hq Hi. unfold subscription.download_queue. rewrite Hq.
  cbn [subscription.download_queue_loop].
  rewrite index_out_of_range; [reflexivity|].
  unfold spec.total_entries in Hi. cbn. lia.
Qed.


End Downloads.


Lemma download_queue_index_error_witness :
  let self := fixtures.sub_with fixtures.ten_entries (Some 0) [(0, true); (3, false)] in
  download_queue fixtures.fake_downloader fixtures.url_dest fixtures.same_directory self []
  = (py.Raise py.IndexError, with_feed_state (set_queue [(3, false)]) self, []).
Proof.
  apply (download_queue_index_error fixtures.fake_downloader fixtures.url_dest
           fixtures.same_directory
           (fixtures.sub_with fixtures.ten_entries (Some 0) [(0, true); (3, false)])
           [] 0 true [(3, false)]).
  - reflexivity.
  - left. lia.
Defined.


(** ** Updates *)

(** The watermark after a drain of the items [first .. first + count - 1]. *)
Lemma drained_watermark_range count first latest :
  spec.drained_watermark (map (fun i => (i, false)) (seqZ first (Z.of_nat count))) latest =
  match count with
  | O => latest
  | S _ => Z.max latest (first + Z.of_nat count - 2)
  end.
Proof.
  revert first latest. induction count as [|count IH]; intros first latest; [reflexivity|].
  rewrite seqZ_cons by lia. cbn [map spec.drained_watermark foldl fst].
  replace (Z.pred (Z.of_nat (S count))) with (Z.of_nat count) by lia.
  fold (spec.drained_watermark
          (map (fun i => (i, false)) (seqZ (Z.succ first) (Z.of_nat count)))
          (Z.max latest (first - 1))).
  rewrite IH. destruct count; lia.
Qed.

(** On first contact with an unlimited backlog -- [download_backlog] on
    and the limit [None] or 0 -- the watermark starts at 0 and every entry
    of the feed is queued, oldest first, with [overwrite] off; the limit
    itself is left as it is. *)
Theorem attempt_update_plan_unlimited_backlog self :
  latest_entry_number (feed_state self) = None ->
  download_backlog self = Some true ->
  backlog_limit self = None \/ backlog_limit self = Some 0 ->
  let planned :=
    with_feed_state
      (fun fs =>
         set_queue (queue fs ++ spec.new_items 0 (spec.total_entries self))
           (set_latest_entry_number (Some 0) fs))
      self in
  attempt_update_plan self =
    (if bool_decide (spec.total_entries self = 0)
     then inl (true, planned)
     else inr planned)
  /\ (spec.new_items 0 (spec.total_entries self)).*1 = seqZ 1 (spec.total_entries self).
Proof.
  intros Hlatest Hbacklog Hlimit. cbv zeta. split.
  - unfold attempt_update_plan, spec.new_items, spec.total_entries.
    rewrite Hlatest, Hbacklog. change (py.truthy (Some true)) with true. cbn match.
    assert (attempt_update_queue 0
              (with_feed_state (set_latest_entry_number (Some 0)) self) =
            if bool_decide (Z.of_nat (length (entries (feed_state self))) = 0)
            then inl (true,
                      with_feed_state
                        (fun fs =>
                           set_queue
                             (queue fs ++
                              map (fun i => (i, false))
                                (seqZ (0 + 1)
                                   (Z.of_nat (length (entries (feed_state self))) - 0)))
                             (set_latest_entry_number (Some 0) fs))
                        self)
            else inr (with_feed_state
                        (fun fs =>
                           set_queue
                             (queue fs ++
                              map (fun i => (i, false))
                                (seqZ (0 + 1)
                                   (Z.of_nat (length (entries (feed_state self))) - 0)))
                             (set_latest_entry_number (Some 0) fs))
                        self)) as Hqueue.
    { unfold attempt_update_queue.
      destruct self as [nm cu pu tu dir bk lim ut [es st q lm et lat hs]]. cbn.
      destruct es as [|entry es].
      - setters. rewrite !bool_decide_eq_true_2 by (cbn; lia). cbn.
        by rewrite ?app_nil_r.
      - rewrite !bool_decide_eq_false_2 by (cbn; lia). by rewrite queued_range. }
    destruct Hlimit as [-> | ->]; [exact Hqueue|].
    rewrite bool_decide_eq_true_2 by done. exact Hqueue.
  - unfold spec.new_items. rewrite <- list_fmap_compose.
    rewrite Z.sub_0_r. change (0 + 1) with 1.
    apply list_eq. intros k. rewrite list_lookup_fmap.
    by destruct (seqZ 1 (spec.total_entries self) !! k).
Qed.

(** The plan of an update whose watermark is set. *)
Lemma attempt_update_plan_after_watermark self latest :
  latest_entry_number (feed_state self) = Some latest ->
  attempt_update_plan self =
    (if bool_decide (spec.total_entries self <= latest)
     then inl (true, self)
     else inr (with_feed_state
                 (fun fs =>
                    set_queue (queue fs ++ spec.new_items latest (spec.total_entries self)) fs)
                 self)).
Proof.
  intros Hlatest.
  unfold attempt_update_plan, attempt_update_queue, spec.new_items, spec.total_entries.
  rewrite Hlatest. cbv zeta.
  case_bool_decide; [by rewrite bool_decide_eq_true_2 by lia|].
  rewrite bool_decide_eq_false_2 by lia. by rewrite queued_range.
Qed.

(** Once the watermark is set, an update queues the entries after it and
    nothing else: with the watermark at [latest] and [n] entries it appends
    the indices [latest + 1 .. n], oldest first and with [overwrite] off,
    and touches neither the watermark nor the backlog limit; with the
    watermark at or past [n] it returns [True] and changes nothing. *)
Theorem attempt_update_plan_incremental self latest :
  latest_entry_number (feed_state self) = Some latest ->
  attempt_update_plan self =
    (if bool_decide (spec.total_entries self <= latest)
     then inl (true, self)
     else inr (with_feed_state
                 (fun fs =>
                    set_queue (queue fs ++ spec.new_items latest (spec.total_entries self)) fs)
                 self))
  /\ length (spec.new_items latest (spec.total_entries self))
     = Z.to_nat (spec.total_entries self - latest).
Proof.
  intros Hlatest. split; [by apply attempt_update_plan_after_watermark|].
  unfold spec.new_items. by rewrite length_map, length_seqZ.
Qed.

Lemma attempt_update_plan_unlimited_backlog_witness :
  let self := fixtures.sub_with fixtures.ten_entries None [] in
  let planned :=
    with_feed_state
      (fun fs =>
         set_queue (queue fs ++ spec.new_items 0 (spec.total_entries self))
           (set_latest_entry_number (Some 0) fs))
      self in
  attempt_update_plan self =
    (if bool_decide (spec.total_entries self = 0)
     then inl (true, planned)
     else inr planned)
  /\ (spec.new_items 0 (spec.total_entries self)).*1 = seqZ 1 (spec.total_entries self).
Proof.
  apply (attempt_update_plan_unlimited_backlog
           (fixtures.sub_with fixtures.ten_entries None []));
    [reflexivity | reflexivity | left; reflexivity].
Defined.

Lemma attempt_update_plan_incremental_witness :
  let self := fixtures.sub_with fixtures.ten_entries (Some 8) [] in
  attempt_update_plan self =
    (if bool_decide (spec.total_entries self <= 8)
     then inl (true, self)
     else inr (with_feed_state
                 (fun fs =>
                    set_queue (queue fs ++ spec.new_items 8 (spec.total_entries self)) fs)
                 self))
  /\ length (spec.new_items 8 (spec.total_entries self))
     = Z.to_nat (spec.total_entries self - 8).
Proof.
  apply (attempt_update_plan_incremental
           (fixtures.sub_with fixtures.ten_entries (Some 8) []) 8).
  reflexivity.
Defined.

Section Updating.

Context (feedparser_parse : list Request -> Request -> Parsed)
  (downloader : list DownloadCall -> DownloadCall -> DownloadOutcome)
  (_get_dest : Subscription -> string -> string -> option string -> string)
  (path_join : option string -> string -> option string).

Local Abbreviation attempt_update :=
  (subscription.attempt_update feedparser_parse downloader _get_dest path_join).
Local Abbreviation download_queue :=
  (subscription.download_queue downloader _get_dest path_join).

(** [attempt_update] always comes to an end.  What it hands on from
    [get_feed] is only ever [UNNEEDED] or [FAILURE] -- after a successful
    fetch it answers with a [bool] -- and in that case nothing was
    downloaded and the entries, the queue, the status flags and the
    watermark are the ones from before the update. *)
Theorem attempt_update_failed_fetch self net dl :
  exists out self' net' dl',
    attempt_update self net dl = Some (out, self', net', dl')
    /\ forall result,
         out = py.Return (Result result) ->
         (result = UNNEEDED \/ result = FAILURE)
         /\ dl' = dl
         /\ spec.fetch_frame self self'
         /\ entries (feed_state self') = entries (feed_state self).
Proof.
  destruct (get_feed_rec_returns feedparser_parse (get_feed_fuel 0) 0 self net)
    as (outcome & self1 & net1 & Hget & _);
    [unfold get_feed_fuel, spec.attempts_left; lia|].
  destruct (get_feed_rec_effects _ _ _ _ _ _ _ _ Hget) as (Hframe & Hended & Hentries & _).
  unfold subscription.attempt_update, subscription.get_feed. rewrite Hget.
  destruct outcome as [result|e];
    [|eexists _, _, _, _; split; [reflexivity|]; intros result' [=]].
  case_bool_decide as Hfailed.
  - eexists _, _, _, _. split; [reflexivity|]. intros result' [= <-].
    split; [destruct Hended as [?|[?|[?|[? ?]]]]; simplify_eq; auto|].
    split; [reflexivity|].
    split; [exact Hframe | apply Hentries; congruence].
  - destruct (attempt_update_plan self1) as [[ret planned]|planned].
    + eexists _, _, _, _. split; [reflexivity|]. intros result' [=].
    + destruct (subscription.download_queue _ _ _ planned dl) as [[[[]|e] drained] dl'];
        eexists _, _, _, _; (split; [reflexivity|]); intros result' [=].
Qed.


End Updating.


(** ** Details of a subscription *)

(** [get_details] needs the watermark like [get_status] does, and it
    lists one entry more than the feed has: its loop runs from 0 to the
    number of entries inclusive, so with [n] entries there are [n + 1]
    indicators, the last one always for an entry that does not exist.  An
    indicator shows a plus sign exactly for the keys of the status map,
    whatever flag the key holds. *)
Theorem get_details_indicators repr_queue index total_subs self :
  (latest_entry_number (feed_state self) = None <->
   get_details repr_queue index total_subs self = py.Raise py.TypeError)
  /\ length (entry_indicators self) = S (length (entries (feed_state self)))
  /\ forall k indicator,
       entry_indicators self !! k = Some indicator ->
       exists digits,
         indicator =
         digits +:+ (if bool_decide (is_Some (entries_state_dict (feed_state self)
                                                !! Z.of_nat k))
                     then "+" else "-").
Proof.
  split; [|split].
  - unfold get_details, get_status.
    destruct (latest_entry_number (feed_state self)); split; intros [=]; reflexivity.
  - unfold entry_indicators. rewrite length_map, length_seqZ. lia.
  - intros k indicator Hk. unfold entry_indicators in Hk.
    rewrite list_lookup_fmap in Hk.
    destruct (seqZ 0 _ !! k) as [i|] eqn:Hi; [|discriminate].
    apply lookup_seqZ in Hi as [-> _]. cbn in Hk. rewrite Z.add_0_l in Hk.
    case_bool_decide; simplify_eq; eauto.
Qed.

(** ** Enqueueing and then draining *)

Section EnqueueAndDrain.

Context (downloader : list DownloadCall -> DownloadCall -> DownloadOutcome)
  (_get_dest : Subscription -> string -> string -> option string -> string)
  (path_join : option string -> string -> option string).

Local Abbreviation download_queue :=
  (subscription.download_queue downloader _get_dest path_join).

(** Numbers of the range are all accepted. *)
Lemma enqueue_accepted_all self nums :
  Forall (fun num => 1 <= num <= spec.total_entries self) nums ->
  enqueue_accepted self nums = map (fun num => (num, true)) nums.
Proof.
  intros Hnums. rewrite enqueue_accepted_in_range. f_equal.
  induction Hnums as [|num nums Hnum _ IH]; [reflexivity|].
  rewrite filter_cons, IH. unfold spec.total_entries in Hnum.
  destruct (decide _) as [|Hout]; [reflexivity | lia].
Qed.


End EnqueueAndDrain.


(** ** Replies and redirects *)

Section Replies.

Context (feedparser_parse : list Request -> Request -> Parsed).

Local Abbreviation _feedparser_parse_with_options :=
  (subscription._feedparser_parse_with_options feedparser_parse).
Local Abbreviation get_feed := (subscription.get_feed feedparser_parse).

(** One parse, whole: the request, the refreshed validators and the
    verdict on the reply. *)
Lemma parse_verdict self net :
  _feedparser_parse_with_options self net =
  (let reply := feedparser_parse net (spec.request_of self) in
   if bool_decide (p_status reply = None) && bool_decide (p_bozo reply = Some 1)
   then ParseFailure
   else if bool_decide (p_status reply = Some 304) then ParseUnneeded
   else ParseSuccess reply,
   spec.refreshed (feedparser_parse net (spec.request_of self)) self,
   net ++ [spec.request_of self]).
Proof.
  destruct self as [nm cu pu tu dir bk lim ut [es st q lm et lat hs]].
  unfold subscription._feedparser_parse_with_options, spec.request_of, spec.refreshed.
  cbn.
  destruct hs, lm as [lm|], et as [et|]; cbn;
    match goal with
    | |- context [feedparser_parse net ?req] =>
      destruct (feedparser_parse net req) as [status bozo etag' modified href raw]
    end; cbn;
    destruct etag', modified; cbn;
    repeat (case_bool_decide; cbn); reflexivity.
Qed.

(** A reply with the status 200 is loaded. *)
Lemma get_feed_ok attempt_count self net :
  attempt_count <= MAX_RECURSIVE_ATTEMPTS ->
  py.none_or_empty (_current_url self) = false ->
  p_status (feedparser_parse net (spec.request_of self)) = Some 200 ->
  get_feed attempt_count self net =
  Some (py.Return SUCCESS,
        with_feed_state
          (set_entries (spec.reply_entries (feedparser_parse net (spec.request_of self))))
          (spec.refreshed (feedparser_parse net (spec.request_of self)) self),
        net ++ [spec.request_of self]).
Proof.
  intros Hbound Hurl Hstatus.
  unfold subscription.get_feed, get_feed_fuel. cbn [subscription.get_feed_rec].
  rewrite bool_decide_eq_false_2 by lia. rewrite Hurl, parse_verdict. cbv zeta.
  rewrite Hstatus. rewrite (bool_decide_eq_false_2 (Some 200 = None)) by done.
  rewrite (bool_decide_eq_false_2 (Some 200 = Some 304)) by done. cbn [andb].
  unfold _handle_http_codes. rewrite Hstatus. reflexivity.
Qed.

(** What [get_feed] makes of a reply that is no redirect and no error.  A
    reply with the status 200, or with no status and not flagged as
    malformed, is loaded: [SUCCESS], and the entries of the reply replace
    the ones the subscription had, whatever their number.  The flag for a
    malformed feed only counts on a reply without status: then the fetch
    ends with [FAILURE].  A 304 ends it with [UNNEEDED].  In all three
    cases one request is made, and the etag and date of the reply are stored
    before the verdict, so they are stored on failure too. *)
Theorem get_feed_single_reply attempt_count self net :
  attempt_count <= MAX_RECURSIVE_ATTEMPTS ->
  py.none_or_empty (_current_url self) = false ->
  let reply := feedparser_parse net (spec.request_of self) in
  (p_status reply = Some 200 \/ (p_status reply = None /\ p_bozo reply <> Some 1) ->
   get_feed attempt_count self net =
   Some (py.Return SUCCESS,
         with_feed_state (set_entries (spec.reply_entries reply)) (spec.refreshed reply self),
         net ++ [spec.request_of self]))
  /\ (p_status reply = None /\ p_bozo reply = Some 1 ->
      get_feed attempt_count self net =
      Some (py.Return FAILURE, spec.refreshed reply self, net ++ [spec.request_of self]))
  /\ (p_status reply = Some 304 ->
      get_feed attempt_count self net =
      Some (py.Return UNNEEDED, spec.refreshed reply self, net ++ [spec.request_of self])).
Proof.
  intros Hbound Hurl reply. subst reply. split; [|split].
  - intros [Hstatus|[Hstatus Hbozo]]; [by apply get_feed_ok|].
    unfold subscription.get_feed, get_feed_fuel. cbn [subscription.get_feed_rec].
    rewrite bool_decide_eq_false_2 by lia. rewrite Hurl, parse_verdict. cbv zeta.
    rewrite Hstatus. rewrite (bool_decide_eq_false_2 (p_bozo _ = Some 1)) by done.
    rewrite andb_false_r. rewrite (bool_decide_eq_false_2 (None = Some 304)) by done.
    unfold _handle_http_codes. rewrite Hstatus. reflexivity.
  - intros [Hstatus Hbozo].
    unfold subscription.get_feed, get_feed_fuel. cbn [subscription.get_feed_rec].
    rewrite bool_decide_eq_false_2 by lia. rewrite Hurl, parse_verdict. cbv zeta.
    rewrite Hstatus, Hbozo. reflexivity.
  - intros Hstatus.
    unfold subscription.get_feed, get_feed_fuel. cbn [subscription.get_feed_rec].
    rewrite bool_decide_eq_false_2 by lia. rewrite Hurl, parse_verdict. cbv zeta.
    rewrite Hstatus. reflexivity.
Qed.

(** The first step of a redirect: the reply goes on to the status
    handling, which asks for another attempt at the target. *)
Lemma redirect_step self net status target :
  py.none_or_empty (_current_url self) = false ->
  p_status (feedparser_parse net (spec.request_of self)) = Some status ->
  p_href (feedparser_parse net (spec.request_of self)) = target ->
  spec.temporary_redirect status \/ spec.permanent_redirect status ->
  let reply := feedparser_parse net (spec.request_of self) in
  _feedparser_parse_with_options self net
  = (ParseSuccess reply, spec.refreshed reply self, net ++ [spec.request_of self])
  /\ exists self2,
       _handle_http_codes reply (spec.refreshed reply self) = (ATTEMPT_AGAIN, self2)
       /\ _current_url self2 = Some target
       /\ _provided_url self2 = _provided_url self
       /\ entries (feed_state self2) = entries (feed_state self)
       /\ (spec.temporary_redirect status ->
           _temp_url self2 = py.Attr (_current_url self))
       /\ (spec.permanent_redirect status -> _temp_url self2 = _temp_url self).
Proof.
  intros Hurl Hstatus Href Hredirect reply. subst reply. split.
  - rewrite parse_verdict. cbv zeta. rewrite Hstatus.
    rewrite (bool_decide_eq_false_2 (Some status = Some 304)); [reflexivity|].
    unfold spec.temporary_redirect, spec.permanent_redirect in Hredirect.
    intros [= ->]. lia.
  - unfold _handle_http_codes. rewrite Hstatus, Href.
    unfold spec.temporary_redirect, spec.permanent_redirect.
    destruct Hredirect as [[-> | [-> | ->]] | [-> | ->]]; cbn;
      eexists; (split; [reflexivity|]);
      split_and!; try done; try lia.
Qed.

(** A redirect whose target answers with 200.  After a temporary redirect
    (302, 303, 307) the fetch asks the old URL, then the target, and ends
    with [SUCCESS] and the target's entries; the provided URL stays, the
    current URL is the old one again and [_temp_url] holds it.  After a
    permanent redirect (301, 308) on a subscription that has [_temp_url]
    the same two requests are made and the current URL is the target --
    unless [_temp_url] was set by an earlier temporary redirect, in which
    case the current URL is put back to that.  On a subscription that has
    no [_temp_url], one decoded from the cache, a permanent redirect ends
    the call in an [AttributeError] after the one request to the old URL:
    the current URL is the target by then, and the entries are the old
    ones. *)
Theorem get_feed_follows_redirect attempt_count self net status target :
  attempt_count < MAX_RECURSIVE_ATTEMPTS ->
  py.none_or_empty (_current_url self) = false ->
  p_status (feedparser_parse net (spec.request_of self)) = Some status ->
  p_href (feedparser_parse net (spec.request_of self)) = target ->
  target <> "" ->
  spec.temporary_redirect status \/ spec.permanent_redirect status ->
  (forall request,
     p_status (feedparser_parse (net ++ [spec.request_of self]) request) = Some 200) ->
  (spec.temporary_redirect status
   \/ (spec.permanent_redirect status /\ _temp_url self <> py.Unset) ->
   exists self' request,
     get_feed attempt_count self net
     = Some (py.Return SUCCESS, self', net ++ [spec.request_of self; request])
     /\ req_url request = Some target
     /\ entries (feed_state self')
        = spec.reply_entries (feedparser_parse (net ++ [spec.request_of self]) request)
     /\ _provided_url self' = _provided_url self
     /\ (spec.temporary_redirect status ->
         _current_url self' = _current_url self
         /\ _temp_url self' = py.Attr (_current_url self))
     /\ (spec.permanent_redirect status ->
         _temp_url self' = _temp_url self
         /\ forall temp,
              _temp_url self = py.Attr temp ->
              _current_url self' = from_option Some (Some target) temp))
  /\ (spec.permanent_redirect status ->
      _temp_url self = py.Unset ->
      exists self',
        get_feed attempt_count self net
        = Some (py.Raise py.AttributeError, self', net ++ [spec.request_of self])
        /\ _current_url self' = Some target
        /\ _provided_url self' = _provided_url self
        /\ _temp_url self' = py.Unset
        /\ entries (feed_state self') = entries (feed_state self)).
Proof.
  intros Hbound Hurl Hstatus Href Htarget Hredirect Hok.
  assert (exists url, _current_url self = Some url) as [url Hcurrent]
    by (destruct (_current_url self); [eauto | discriminate]).
  destruct (redirect_step self net status target Hurl Hstatus Href Hredirect)
    as (Hparse & self2 & Hcode & Hcurrent2 & Hprovided2 & Hentries2 & Htemp2 & Hperm2).
  set (reply := feedparser_parse net (spec.request_of self)) in *.
  pose proof (get_feed_attempt_again feedparser_parse attempt_count self net reply
                (spec.refreshed reply self) (net ++ [spec.request_of self]) self2
                ltac:(lia) Hurl Hparse Hcode) as Hagain.
  split.
  - intros Hcase.
    assert (exists temp, _temp_url self2 = py.Attr temp) as [temp Hattr].
    { destruct Hcase as [Htemporary|[Hpermanent Hset]].
      - rewrite (Htemp2 Htemporary). eauto.
      - rewrite (Hperm2 Hpermanent). destruct (_temp_url self); [done | eauto]. }
    rewrite Hattr in Hagain.
    rewrite (get_feed_ok (attempt_count + 1) self2 (net ++ [spec.request_of self]))
      in Hagain;
      [|lia | rewrite Hcurrent2; cbn; by rewrite bool_decide_eq_false_2 | apply Hok].
    rewrite Hagain.
    eexists _, (spec.request_of self2). rewrite <- app_assoc. split; [reflexivity|].
    split; [unfold spec.request_of; rewrite Hcurrent2; by destruct (has_state _)|].
    split; [by destruct temp|].
    split; [destruct temp; exact Hprovided2|].
    split.
    + intros Htemporary. rewrite (Htemp2 Htemporary) in Hattr.
      injection Hattr as <-. rewrite Hcurrent. cbn.
      by rewrite (Htemp2 Htemporary), Hcurrent.
    + intros Hpermanent. rewrite (Hperm2 Hpermanent) in Hattr.
      split; [destruct temp; cbn; by rewrite (Hperm2 Hpermanent)|].
      intros temp' Hattr'. rewrite Hattr in Hattr'. injection Hattr' as <-.
      destruct temp; cbn; [reflexivity | exact Hcurrent2].
  - intros Hpermanent Hunset.
    rewrite (Hperm2 Hpermanent), Hunset in Hagain.
    exists self2. split; [exact Hagain|].
    split; [exact Hcurrent2|]. split; [exact Hprovided2|].
    split; [by rewrite (Hperm2 Hpermanent)|]. exact Hentries2.
Qed.

End Replies.

Lemma get_feed_single_reply_witness :
  let self := new_subscription "valid" "200Test" None true None in
  let reply := fixtures.fake_parser [] (spec.request_of self) in
  (p_status reply = Some 200 \/ (p_status reply = None /\ p_bozo reply <> Some 1) ->
   get_feed fixtures.fake_parser 0 self [] =
   Some (py.Return SUCCESS,
         with_feed_state (set_entries (spec.reply_entries reply)) (spec.refreshed reply self),
         [] ++ [spec.request_of self]))
  /\ (p_status reply = None /\ p_bozo reply = Some 1 ->
      get_feed fixtures.fake_parser 0 self [] =
      Some (py.Return FAILURE, spec.refreshed reply self, [] ++ [spec.request_of self]))
  /\ (p_status reply = Some 304 ->
      get_feed fixtures.fake_parser 0 self [] =
      Some (py.Return UNNEEDED, spec.refreshed reply self, [] ++ [spec.request_of self])).
Proof.
  apply (get_feed_single_reply fixtures.fake_parser 0
           (new_subscription "valid" "200Test" None true None) []);
    [unfold MAX_RECURSIVE_ATTEMPTS; lia | reflexivity].
Defined.

Lemma get_feed_follows_redirect_witness :
  let self := new_subscription "old" "307Test" None true None in
  let cached := fixtures.decoded "old" "308Test" in
  (exists self' request,
     get_feed (fixtures.redirecting_once 307) 0 self []
     = Some (py.Return SUCCESS, self', [] ++ [spec.request_of self; request])
     /\ req_url request = Some "valid"
     /\ _current_url self' = Some "old"
     /\ _temp_url self' = py.Attr (Some "old"))
  /\ (exists self',
        get_feed (fixtures.redirecting_once 308) 0 cached []
        = Some (py.Raise py.AttributeError, self', [] ++ [spec.request_of cached])
        /\ _current_url self' = Some "valid"
        /\ _temp_url self' = py.Unset).
Proof.
  split.
  - destruct (proj1 (get_feed_follows_redirect (fixtures.redirecting_once 307) 0
                       (new_subscription "old" "307Test" None true None) [] 307 "valid"
                       ltac:(unfold MAX_RECURSIVE_ATTEMPTS; lia) eq_refl eq_refl eq_refl
                       ltac:(discriminate)
                       (or_introl (or_intror (or_intror eq_refl)))
                       (fun _ => eq_refl))
                (or_introl (or_intror (or_intror eq_refl))))
      as (self' & request & Hget & Hrequest & _ & _ & Htemporary & _).
    destruct (Htemporary (or_intror (or_intror eq_refl))) as [Hcurrent Htemp].
    exists self', request. by split_and!.
  - destruct (proj2 (get_feed_follows_redirect (fixtures.redirecting_once 308) 0
                       (fixtures.decoded "old" "308Test") [] 308 "valid"
                       ltac:(unfold MAX_RECURSIVE_ATTEMPTS; lia) eq_refl eq_refl eq_refl
                       ltac:(discriminate)
                       (or_intror (or_intror eq_refl))
                       (fun _ => eq_refl))
                (or_intror eq_refl) eq_refl)
      as (self' & Hget & Hcurrent & _ & Htemp & _).
    exists self'. by split_and!.
Defined.
